(** * Client bindings of the ACCESS staking program

    A shallow embedding of the two client modules of the binding layer:

    - the account queries ([getStakeAccounts], [getStakePools], ...), which
      build a list of [memcmp] filters and hand it to the RPC call
      [getProgramAccounts];
    - the instruction builders of [bindings.ts] ([changeInflation], ...,
      [adminMint]), which derive addresses, await the decoded contents of a
      few accounts and return a [TransactionInstruction].

    Bytes are integers in [0, 256); a [PublicKey] is its 32-byte buffer; a
    [number] argument is an integer; an [async] function is a tree of
    awaited RPC reads that is run against a remote endpoint. *)

From Stdlib Require Import ZArith List String Ascii Bool Lia.
Import ListNotations.
Local Open Scope Z_scope.

(** ** Bytes and base-58 text *)

Definition is_byte (b : Z) : Prop := 0 <= b < 256.
Definition bytes_ok (bs : list Z) : Prop := Forall is_byte bs.

(** The alphabet of the base-58 codec used by [PublicKey.toBase58] and by the
    [bytes] field of an RPC [memcmp] filter. *)
Definition ALPHABET : string :=
  "123456789ABCDEFGHJKLMNPQRSTUVWXYZabcdefghijkmnopqrstuvwxyz".

Definition BASE : Z := 58.
Definition LEADER : ascii := "1"%char.

Definition b58_char (d : Z) : ascii :=
  match String.get (Z.to_nat d) ALPHABET with
  | Some c => c
  | None => LEADER
  end.

Fixpoint index_from (i : Z) (c : ascii) (s : string) : option Z :=
  match s with
  | EmptyString => None
  | String c' s' => if Ascii.eqb c c' then Some i else index_from (i + 1) c s'
  end.

Definition b58_digit (c : ascii) : option Z := index_from 0 c ALPHABET.

(** Positional value of a big-endian digit string in base [base]. *)
Definition value_of (base : Z) (ds : list Z) : Z :=
  fold_left (fun acc d => acc * base + d) ds 0.

(** Big-endian digits of [n] in base [base], most significant digit first and
    without leading zero; [fuel] bounds the number of divisions. *)
Fixpoint digits_of (fuel : nat) (base n : Z) (acc : list Z) : list Z :=
  match fuel with
  | O => acc
  | S fuel' =>
      if n =? 0 then acc
      else digits_of fuel' base (n / base) (n mod base :: acc)
  end.

Fixpoint leading_zeros (ds : list Z) : nat :=
  match ds with
  | d :: ds' => if d =? 0 then S (leading_zeros ds') else O
  | [] => O
  end.

Fixpoint map_option {A B : Type} (f : A -> option B) (l : list A)
  : option (list B) :=
  match l with
  | [] => Some []
  | a :: l' =>
      match f a, map_option f l' with
      | Some b, Some bs => Some (b :: bs)
      | _, _ => None
      end
  end.

(** [bs58.encode]: one leader character per leading zero byte, then the
    base-58 digits of the remaining big-endian number. *)
Definition bs58_encode (source : list Z) : string :=
  let zeroes := leading_zeros source in
  let rest := skipn zeroes source in
  let b58 := digits_of (8 * List.length rest)%nat BASE (value_of 256 rest) [] in
  string_of_list_ascii (repeat LEADER zeroes ++ map b58_char b58).

(** [bs58.decode]: one zero byte per leading leader character, then the
    bytes of the remaining base-58 number; [None] on a character outside the
    alphabet. *)
Definition bs58_decode (text : string) : option (list Z) :=
  match map_option b58_digit (list_ascii_of_string text) with
  | None => None
  | Some ds =>
      let zeroes := leading_zeros ds in
      let rest := skipn zeroes ds in
      Some (repeat 0 zeroes
              ++ digits_of (6 * List.length rest)%nat 256 (value_of BASE rest) [])
  end.

(** ** Values of the RPC client library *)

(** A public key is the 32-byte buffer that [toBuffer] returns. *)
Definition PublicKey : Type := list Z.

Definition key_ok (k : PublicKey) : Prop :=
  List.length k = 32%nat /\ bytes_ok k.

Definition toBuffer (k : PublicKey) : list Z := k.
Definition toBase58 (k : PublicKey) : string := bs58_encode (toBuffer k).

Fixpoint bytes_eqb (a b : list Z) : bool :=
  match a, b with
  | [], [] => true
  | x :: a', y :: b' => (x =? y) && bytes_eqb a' b'
  | _, _ => false
  end.

(** A JavaScript [Error], identified by its message. *)
Definition Error : Type := string.

(** [{ memcmp: { offset, bytes } }]: [bytes] is base-58 text. *)
Record MemcmpFilter : Type := memcmp { offset : Z; bytes : string }.

Module AccountInfo.
Record t : Type := mk { owner : PublicKey; data : list Z }.
End AccountInfo.

Record AccountMeta : Type :=
  { pubkey : PublicKey; isSigner : bool; isWritable : bool }.

Record TransactionInstruction : Type :=
  { keys : list AccountMeta; programId : PublicKey; data : list Z }.

(** ** Decoded accounts ([state.ts]): the fields that the bindings read *)

Module CentralState.
Record t : Type := mk { authority : PublicKey; tokenMint : PublicKey }.
End CentralState.

Module StakePool.
Record t : Type := mk { owner : PublicKey; vault : PublicKey }.
End StakePool.

Module BondAccount.
Record t : Type :=
  mk { owner : PublicKey; stakePool : PublicKey;
       sellerTokenAccount : PublicKey }.
End BondAccount.

Module StakeAccount.
Record t : Type := mk { owner : PublicKey; stakePool : PublicKey }.
End StakeAccount.

Inductive AccountKind : Type :=
| KCentralState | KStakePool | KBondAccount | KStakeAccount.

Definition Decoded (kind : AccountKind) : Type :=
  match kind with
  | KCentralState => CentralState.t
  | KStakePool => StakePool.t
  | KBondAccount => BondAccount.t
  | KStakeAccount => StakeAccount.t
  end.

(** ** Instruction objects and their payload ([raw_instructions.ts]) *)

Inductive InstructionKind : Type :=
| changeInflationInstruction
| changePoolMinimumInstruction
| claimBondRewardsInstruction
| claimBondInstruction
| claimPoolRewardsInstruction
| claimRewardsInstruction
| closeStakeAccountInstruction
| closeStakePoolInstruction
| crankInstruction
| createBondInstruction
| createCentralStateInstruction
| createStakeAccountInstruction
| createStakePoolInstruction
| signBondInstruction
| stakeInstruction
| unlockBondTokensInstruction
| unstakeInstruction
| adminMintInstruction.

(** A property of the object given to an instruction constructor: a plain
    number (the nonce), a [BN], a byte buffer or a string. *)
Inductive Field : Type :=
| FNumber (n : Z)
| FBN (n : Z)
| FBuffer (b : list Z)
| FString (s : string).

Inductive FieldType : Type :=
| TNumber
| TBN
| TBuffer (len : nat)
| TString.

Definition Props : Type := list (string * Field).

Definition field_type (f : Field) : FieldType :=
  match f with
  | FNumber _ => TNumber
  | FBN _ => TBN
  | FBuffer b => TBuffer (List.length b)
  | FString _ => TString
  end.

Definition schema_of (props : Props) : list FieldType :=
  map (fun p => field_type (snd p)) props.

(** Little-endian bytes of a [width]-byte unsigned integer; a value outside
    the range wraps. *)
Fixpoint le_bytes (width : nat) (n : Z) : list Z :=
  match width with
  | O => []
  | S w => n mod 256 :: le_bytes w (n / 256)
  end.

Fixpoint le_value (bs : list Z) : Z :=
  match bs with
  | [] => 0
  | b :: bs' => b + 256 * le_value bs'
  end.

Definition string_bytes (s : string) : list Z :=
  map (fun c => Z.of_nat (nat_of_ascii c)) (list_ascii_of_string s).

Definition bytes_string (bs : list Z) : string :=
  string_of_list_ascii (map (fun b => ascii_of_nat (Z.to_nat b)) bs).

(** Modelled from the spec: the serialization of [raw_instructions.ts],
    of which only the use by [bindings.ts] is at hand.
    The builder "packs the numeric/string arguments into a fixed binary
    layout": every property has its place and width, a number one byte, a
    [BN] the eight little-endian bytes of its magnitude, a buffer its own
    bytes and a string its bytes after a four-byte length. *)
Definition encode_field (f : Field) : list Z :=
  match f with
  | FNumber n => le_bytes 1 n
  | FBN n => le_bytes 8 (Z.abs n)
  | FBuffer b => b
  | FString s =>
      let bs := string_bytes s in
      le_bytes 4 (Z.of_nat (List.length bs)) ++ bs
  end.

(** Modelled from the spec: the payload of an instruction object is its tag
    byte followed by its properties in the order of the layout. *)
Definition serialize (tag : Z) (props : Props) : list Z :=
  le_bytes 1 tag ++ List.concat (map (fun p => encode_field (snd p)) props).

Definition take (n : nat) (bs : list Z) : option (list Z * list Z) :=
  if (n <=? List.length bs)%nat then Some (firstn n bs, skipn n bs) else None.

(** Modelled from the spec: the reader of the same layout ("decoding a
    previously encoded instruction payload"); the client has no decoder of
    its own. *)
Definition decode_field (ty : FieldType) (bs : list Z)
  : option (Field * list Z) :=
  match ty with
  | TNumber =>
      match take 1 bs with
      | Some (h, rest) => Some (FNumber (le_value h), rest)
      | None => None
      end
  | TBN =>
      match take 8 bs with
      | Some (h, rest) => Some (FBN (le_value h), rest)
      | None => None
      end
  | TBuffer len =>
      match take len bs with
      | Some (h, rest) => Some (FBuffer h, rest)
      | None => None
      end
  | TString =>
      match take 4 bs with
      | Some (h, rest) =>
          match take (Z.to_nat (le_value h)) rest with
          | Some (body, rest') => Some (FString (bytes_string body), rest')
          | None => None
          end
      | None => None
      end
  end.

Fixpoint decode_fields (schema : list FieldType) (bs : list Z)
  : option (list Field) :=
  match schema with
  | [] => match bs with [] => Some [] | _ :: _ => None end
  | ty :: schema' =>
      match decode_field ty bs with
      | Some (f, rest) =>
          match decode_fields schema' rest with
          | Some fs => Some (f :: fs)
          | None => None
          end
      | None => None
      end
  end.

(** Modelled from the spec: decoding a payload yields the tag and the
    values of the properties. *)
Definition deserialize_payload (schema : list FieldType) (payload : list Z)
  : option (Z * list Field) :=
  match payload with
  | [] => None
  | t :: rest =>
      match decode_fields schema rest with
      | Some fs => Some (t, fs)
      | None => None
      end
  end.

Definition field_ok (f : Field) : Prop :=
  match f with
  | FNumber n => 0 <= n < 256
  | FBN n => 0 <= n < 2 ^ 64
  | FBuffer b => bytes_ok b
  | FString s => Z.of_nat (String.length s) < 2 ^ 32
  end.

Definition props_ok (props : Props) : Prop :=
  Forall (fun p => field_ok (snd p)) props.

(** ** The remote endpoint *)

Inductive Request : Type :=
| GetAccountInfo (key : PublicKey)
| GetProgramAccounts (program : PublicKey) (filters : list MemcmpFilter).

(** The endpoint holds the accounts of the chain, may fail a request with a
    transport error, and has served the requests of [served], oldest
    first. *)
Record Remote : Type :=
  { accounts : list (PublicKey * AccountInfo.t);
    failure : Request -> option Error;
    served : list Request }.

Definition serve (r : Remote) (q : Request) : Remote :=
  {| accounts := accounts r;
     failure := failure r;
     served := served r ++ [q] |}.

Fixpoint find_account (key : PublicKey)
  (l : list (PublicKey * AccountInfo.t)) : option AccountInfo.t :=
  match l with
  | [] => None
  | (k, info) :: l' =>
      if bytes_eqb k key then Some info else find_account key l'
  end.

(** "get single account bytes by address". *)
Definition rpc_getAccountInfo (r : Remote) (key : PublicKey)
  : (Error + option AccountInfo.t) * Remote :=
  let q := GetAccountInfo key in
  (match failure r q with
   | Some e => inl e
   | None => inr (find_account key (accounts r))
   end, serve r q).

(** The byte pattern that a filter compares with the account data. *)
Definition pattern (f : MemcmpFilter) : option (list Z) :=
  bs58_decode (bytes f).

Definition memcmp_matches (f : MemcmpFilter) (account_data : list Z) : bool :=
  match pattern f with
  | Some pat =>
      (0 <=? offset f)
      && bytes_eqb
           (firstn (List.length pat) (skipn (Z.to_nat (offset f)) account_data))
           pat
  | None => false
  end.

Definition INVALID_PARAMS : Error := "Invalid params"%string.

(** "get program accounts with byte-filters": the accounts owned by the
    program whose data every filter matches. *)
Definition rpc_getProgramAccounts (r : Remote) (program : PublicKey)
  (filters : list MemcmpFilter)
  : (Error + list (PublicKey * AccountInfo.t)) * Remote :=
  let q := GetProgramAccounts program filters in
  (match failure r q with
   | Some e => inl e
   | None =>
       if forallb (fun f => match pattern f with Some _ => true | None => false end)
            filters
       then inr (filter
                   (fun a =>
                      bytes_eqb (AccountInfo.owner (snd a)) program
                      && forallb (fun f => memcmp_matches f (AccountInfo.data (snd a)))
                           filters)
                   (accounts r))
       else inl INVALID_PARAMS
   end, serve r q).

(** ** Asynchronous functions *)

(** An [async] function of the bindings either returns, or throws (an
    exception of a library it calls), or awaits the decoded contents of an
    account ([X.retrieve(connection, key)]), or awaits an account scan
    ([connection.getProgramAccounts]).  The [connection] argument of the
    source is the endpoint the tree is run against. *)
Inductive Async (A : Type) : Type :=
| Return (a : A)
| Throw (e : Error)
| AwaitRetrieve (kind : AccountKind) (key : PublicKey)
    (cont : Decoded kind -> Async A)
| AwaitGetProgramAccounts (program : PublicKey) (filters : list MemcmpFilter)
    (cont : list (PublicKey * AccountInfo.t) -> Async A).

Arguments Return {A} a.
Arguments Throw {A} e.
Arguments AwaitRetrieve {A} kind key cont.
Arguments AwaitGetProgramAccounts {A} program filters cont.

Fixpoint bind {A B : Type} (m : Async A) (k : A -> Async B) : Async B :=
  match m with
  | Return a => k a
  | Throw e => Throw e
  | AwaitRetrieve kind key cont =>
      AwaitRetrieve kind key (fun v => bind (cont v) k)
  | AwaitGetProgramAccounts program filters cont =>
      AwaitGetProgramAccounts program filters (fun v => bind (cont v) k)
  end.

Notation "x <- m ;; k" := (bind m (fun x => k))
  (at level 61, m at next level, right associativity).

(** The outcome of a local call that may throw. *)
Definition settle {A : Type} (x : Error + A) : Async A :=
  match x with
  | inl e => Throw e
  | inr a => Return a
  end.

Definition ASSERTION_FAILED : Error := "Assertion failed"%string.

(** [new BN(number)]: the constructor takes the sign apart and asserts that
    the magnitude is below 2^53. *)
Definition new_BN (number : Z) : Async Z :=
  if Z.abs number <? 2 ^ 53 then Return number else Throw ASSERTION_FAILED.

(** The remote steps that a run awaits. *)
Inductive Step : Type :=
| Retrieve (kind : AccountKind) (key : PublicKey)
| Scan (program : PublicKey) (filters : list MemcmpFilter).

Definition request_of (s : Step) : Request :=
  match s with
  | Retrieve _ key => GetAccountInfo key
  | Scan program filters => GetProgramAccounts program filters
  end.

(** What the two modules import: address derivation and account decoders
    of [state.ts], tags and account flags of [raw_instructions.ts], the
    program address, and the constants and helpers of the token library.
    They are parameters of the development. *)
Class Imports : Type :=
  { CentralState_getKey : PublicKey -> PublicKey * Z;
    StakePool_getKey : PublicKey -> PublicKey -> PublicKey -> PublicKey * Z;
    StakeAccount_getKey : PublicKey -> PublicKey -> PublicKey -> PublicKey * Z;
    BondAccount_getKey : PublicKey -> PublicKey -> Z -> PublicKey * Z;
    deserialize : forall kind : AccountKind, list Z -> Error + Decoded kind;
    not_found : AccountKind -> Error;
    tag_of : InstructionKind -> Z;
    account_flags : InstructionKind -> nat -> bool * bool;
    ACCESS_PROGRAM_ID : PublicKey;
    TOKEN_PROGRAM_ID : PublicKey;
    ASSOCIATED_TOKEN_PROGRAM_ID : PublicKey;
    SystemProgram_programId : PublicKey;
    Token_getAssociatedTokenAddress :
      PublicKey -> PublicKey -> PublicKey -> PublicKey -> Error + PublicKey;
    Token_createAssociatedTokenAccountInstruction :
      PublicKey -> PublicKey -> PublicKey -> PublicKey -> PublicKey ->
      PublicKey -> TransactionInstruction }.

Section Bindings.

Context `{Imports}.

(** *** Running against the endpoint *)

(** Modelled from the spec: [retrieve] of [state.ts], of which only the
    calls are at hand.  It "fetches one or more account's current decoded
    fields": one read of the account's bytes, then the decoder, and it
    "surfaces whatever error the remote read or decode raises (e.g.,
    account not found, decode-length mismatch)". *)
Definition retrieve (r : Remote) (kind : AccountKind) (key : PublicKey)
  : (Error + Decoded kind) * Remote :=
  let (reply, r') := rpc_getAccountInfo r key in
  (match reply with
   | inl e => inl e
   | inr None => inl (not_found kind)
   | inr (Some info) => deserialize kind (AccountInfo.data info)
   end, r').

(** No function of the bindings has a [try]: a rejected await rejects the
    whole call. *)
Fixpoint run {A : Type} (p : Async A) (r : Remote) : (Error + A) * Remote :=
  match p with
  | Return a => (inr a, r)
  | Throw e => (inl e, r)
  | AwaitRetrieve kind key cont =>
      match retrieve r kind key with
      | (inl e, r') => (inl e, r')
      | (inr v, r') => run (cont v) r'
      end
  | AwaitGetProgramAccounts program filters cont =>
      match rpc_getProgramAccounts r program filters with
      | (inl e, r') => (inl e, r')
      | (inr v, r') => run (cont v) r'
      end
  end.

(** The error, if any, that a step raises against the endpoint. *)
Definition step_error (r : Remote) (s : Step) : option Error :=
  match s with
  | Retrieve kind key =>
      match fst (retrieve r kind key) with
      | inl e => Some e
      | inr _ => None
      end
  | Scan program filters =>
      match fst (rpc_getProgramAccounts r program filters) with
      | inl e => Some e
      | inr _ => None
      end
  end.

(** The steps awaited by a run, in order. *)
Fixpoint steps {A : Type} (p : Async A) (r : Remote) : list Step :=
  match p with
  | Return _ => []
  | Throw _ => []
  | AwaitRetrieve kind key cont =>
      Retrieve kind key ::
      match retrieve r kind key with
      | (inl _, _) => []
      | (inr v, r') => steps (cont v) r'
      end
  | AwaitGetProgramAccounts program filters cont =>
      Scan program filters ::
      match rpc_getProgramAccounts r program filters with
      | (inl _, _) => []
      | (inr v, r') => steps (cont v) r'
      end
  end.

(** The exception, if any, that a run throws by itself, outside every
    awaited step. *)
Fixpoint thrown {A : Type} (p : Async A) (r : Remote) : option Error :=
  match p with
  | Return _ => None
  | Throw e => Some e
  | AwaitRetrieve kind key cont =>
      match retrieve r kind key with
      | (inl _, _) => None
      | (inr v, r') => thrown (cont v) r'
      end
  | AwaitGetProgramAccounts program filters cont =>
      match rpc_getProgramAccounts r program filters with
      | (inl _, _) => None
      | (inr v, r') => thrown (cont v) r'
      end
  end.

Definition CentralState_retrieve (key : PublicKey) : Async CentralState.t :=
  AwaitRetrieve KCentralState key Return.
Definition StakePool_retrieve (key : PublicKey) : Async StakePool.t :=
  AwaitRetrieve KStakePool key Return.
Definition BondAccount_retrieve (key : PublicKey) : Async BondAccount.t :=
  AwaitRetrieve KBondAccount key Return.
Definition StakeAccount_retrieve (key : PublicKey) : Async StakeAccount.t :=
  AwaitRetrieve KStakeAccount key Return.

Definition connection_getProgramAccounts (program : PublicKey)
  (filters : list MemcmpFilter) : Async (list (PublicKey * AccountInfo.t)) :=
  AwaitGetProgramAccounts program filters Return.

(** *** Instruction objects *)

Fixpoint metas (kind : InstructionKind) (i : nat) (l : list PublicKey)
  : list AccountMeta :=
  match l with
  | [] => []
  | k :: l' =>
      {| pubkey := k;
         isSigner := fst (account_flags kind i);
         isWritable := snd (account_flags kind i) |}
      :: metas kind (S i) l'
  end.

(** Modelled from the spec: [getInstruction] of [raw_instructions.ts], of
    which only the calls are at hand.  It "returns an ordered
    account-reference list plus the payload": the accounts in the order
    given, and the object serialized. *)
Definition getInstruction (kind : InstructionKind) (props : Props)
  (program : PublicKey) (accts : list PublicKey) : TransactionInstruction :=
  {| keys := metas kind 0 accts;
     programId := program;
     data := serialize (tag_of kind) props |}.

End Bindings.

(** ** The account queries *)

Section Queries.

Context `{Imports}.

Definition getStakeAccounts (owner : PublicKey) :=
  let filters :=
    [ {| offset := 0; bytes := "4" |};
      {| offset := 1; bytes := toBase58 owner |} ] in
  connection_getProgramAccounts ACCESS_PROGRAM_ID filters.

Definition getStakePools (owner : PublicKey) :=
  let filters :=
    [ {| offset := 0; bytes := "2" |};
      {| offset := 1 + 1 + 2 + 4 + 8 + 8 + 8; bytes := toBase58 owner |} ] in
  connection_getProgramAccounts ACCESS_PROGRAM_ID filters.

Definition getBondAccounts (owner : PublicKey) :=
  let filters :=
    [ {| offset := 0; bytes := "6" |};
      {| offset := 1; bytes := toBase58 owner |} ] in
  connection_getProgramAccounts ACCESS_PROGRAM_ID filters.

Definition getAllStakePools :=
  let filters := [ {| offset := 0; bytes := "2" |} ] in
  connection_getProgramAccounts ACCESS_PROGRAM_ID filters.

Definition getAllInactiveStakePools :=
  let filters := [ {| offset := 0; bytes := "3" |} ] in
  connection_getProgramAccounts ACCESS_PROGRAM_ID filters.

Definition getAllInactiveBonds :=
  let filters := [ {| offset := 0; bytes := "5" |} ] in
  connection_getProgramAccounts ACCESS_PROGRAM_ID filters.

Definition getAllActiveBonds :=
  let filters := [ {| offset := 0; bytes := "6" |} ] in
  connection_getProgramAccounts ACCESS_PROGRAM_ID filters.

End Queries.

(** ** The instruction builders ([bindings.ts]) *)

Local Open Scope string_scope.

Section Builders.

Context `{Imports}.

Definition changeInflation (newInflation : Z) (programId : PublicKey)
  : Async TransactionInstruction :=
  let '(centralKey, _) := CentralState_getKey programId in
  centralState <- CentralState_retrieve centralKey ;;
  dailyInflation <- new_BN newInflation ;;
  let ix :=
    getInstruction changeInflationInstruction
      [("dailyInflation", FBN dailyInflation)]
      programId [centralKey; CentralState.authority centralState] in
  Return ix.

Definition changePoolMinimum (stakePoolKey : PublicKey) (newMinimum : Z)
  (programId : PublicKey) : Async TransactionInstruction :=
  stakePool <- StakePool_retrieve stakePoolKey ;;
  newMinimum <- new_BN newMinimum ;;
  let ix :=
    getInstruction changePoolMinimumInstruction
      [("newMinimum", FBN newMinimum)]
      programId [stakePoolKey; StakePool.owner stakePool] in
  Return ix.

Definition claimBondRewards (bondAccount rewardsDestination
  programId : PublicKey) : Async TransactionInstruction :=
  let '(centralKey, _) := CentralState_getKey programId in
  centralState <- CentralState_retrieve centralKey ;;
  bond <- BondAccount_retrieve bondAccount ;;
  let ix :=
    getInstruction claimBondRewardsInstruction []
      programId
      [ BondAccount.stakePool bond;
        bondAccount;
        BondAccount.owner bond;
        rewardsDestination;
        centralKey;
        CentralState.tokenMint centralState;
        TOKEN_PROGRAM_ID ] in
  Return ix.

Definition claimBond (bondAccount buyer quoteTokenSource
  programId : PublicKey) : Async TransactionInstruction :=
  bond <- BondAccount_retrieve bondAccount ;;
  let ix :=
    getInstruction claimBondInstruction []
      programId
      [ bondAccount;
        buyer;
        quoteTokenSource;
        BondAccount.sellerTokenAccount bond;
        TOKEN_PROGRAM_ID ] in
  Return ix.

(** The body builds [ix] and ends without a [return]: the call resolves
    to [undefined]. *)
Definition claimPoolRewards (stakePoolAccount rewardsDestination
  programId : PublicKey) : Async unit :=
  let '(centralKey, _) := CentralState_getKey programId in
  centralState <- CentralState_retrieve centralKey ;;
  stakePool <- StakePool_retrieve stakePoolAccount ;;
  let ix :=
    getInstruction claimPoolRewardsInstruction []
      programId
      [ stakePoolAccount;
        StakePool.owner stakePool;
        rewardsDestination;
        centralKey;
        CentralState.tokenMint centralState;
        TOKEN_PROGRAM_ID ] in
  Return tt.

Definition claimRewards (stakeAccount rewardsDestination
  programId : PublicKey) : Async TransactionInstruction :=
  stake <- StakeAccount_retrieve stakeAccount ;;
  let '(centralKey, _) := CentralState_getKey programId in
  centralState <- CentralState_retrieve centralKey ;;
  let ix :=
    getInstruction claimRewardsInstruction []
      programId
      [ StakeAccount.stakePool stake;
        stakeAccount;
        StakeAccount.owner stake;
        rewardsDestination;
        centralKey;
        CentralState.tokenMint centralState;
        TOKEN_PROGRAM_ID ] in
  Return ix.

Definition closeStakeAccount (stakeAccount programId : PublicKey)
  : Async TransactionInstruction :=
  stake <- StakeAccount_retrieve stakeAccount ;;
  let ix :=
    getInstruction closeStakeAccountInstruction []
      programId [stakeAccount; StakeAccount.owner stake] in
  Return ix.

Definition closeStakePool (stakePoolAccount programId : PublicKey)
  : Async TransactionInstruction :=
  stakePool <- StakePool_retrieve stakePoolAccount ;;
  let ix :=
    getInstruction closeStakePoolInstruction []
      programId [stakePoolAccount; StakePool.owner stakePool] in
  Return ix.

Definition crank (stakePoolAccount programId : PublicKey)
  : Async TransactionInstruction :=
  let '(centralKey, _) := CentralState_getKey programId in
  let ix :=
    getInstruction crankInstruction []
      programId [stakePoolAccount; centralKey] in
  Return ix.

Definition createBond (seller buyer : PublicKey)
  (totalAmountSold totalQuoteAmount : Z)
  (quoteMint sellerTokenAccount : PublicKey)
  (unlockStartDate unlockPeriod unlockAmount lastUnlockTime : Z)
  (stakePool : PublicKey) (sellerIndex : Z) (programId : PublicKey)
  : Async TransactionInstruction :=
  let '(bondAccount, _) :=
    BondAccount_getKey programId buyer totalAmountSold in
  totalAmountSold <- new_BN totalAmountSold ;;
  totalQuoteAmount <- new_BN totalQuoteAmount ;;
  unlockStartDate <- new_BN unlockStartDate ;;
  unlockPeriod <- new_BN unlockPeriod ;;
  unlockAmount <- new_BN unlockAmount ;;
  lastUnlockTime <- new_BN lastUnlockTime ;;
  sellerIndex <- new_BN sellerIndex ;;
  let ix :=
    getInstruction createBondInstruction
      [ ("buyer", FBuffer (toBuffer buyer));
        ("totalAmountSold", FBN totalAmountSold);
        ("totalQuoteAmount", FBN totalQuoteAmount);
        ("quoteMint", FBuffer (toBuffer quoteMint));
        ("sellerTokenAccount", FBuffer (toBuffer sellerTokenAccount));
        ("unlockStartDate", FBN unlockStartDate);
        ("unlockPeriod", FBN unlockPeriod);
        ("unlockAmount", FBN unlockAmount);
        ("lastUnlockTime", FBN lastUnlockTime);
        ("sellerIndex", FBN sellerIndex) ]
      programId
      [seller; bondAccount; stakePool; SystemProgram_programId; seller] in
  Return ix.

Definition createCentralState (dailyInflation : Z)
  (authority feePayer mint programId : PublicKey)
  : Async TransactionInstruction :=
  let '(centralKey, _) := CentralState_getKey programId in
  dailyInflation <- new_BN dailyInflation ;;
  let ix :=
    getInstruction createCentralStateInstruction
      [ ("dailyInflation", FBN dailyInflation);
        ("authority", FBuffer (toBuffer authority)) ]
      programId
      [centralKey; SystemProgram_programId; feePayer; mint] in
  Return ix.

Definition createStakeAccount (stakePool owner feePayer
  programId : PublicKey) : Async TransactionInstruction :=
  let '(stakeAccount, nonce) :=
    StakeAccount_getKey programId owner stakePool in
  let ix :=
    getInstruction createStakeAccountInstruction
      [ ("nonce", FNumber nonce);
        ("owner", FBuffer (toBuffer owner)) ]
      programId
      [stakeAccount; SystemProgram_programId; stakePool; feePayer] in
  Return ix.

Definition createStakePool (name : string) (owner destination : PublicKey)
  (minimumStakeAmount : Z) (feePayer programId : PublicKey)
  : Async (list TransactionInstruction) :=
  let '(stakePool, nonce) := StakePool_getKey programId owner destination in
  let '(centralKey, _) := CentralState_getKey programId in
  centralState <- CentralState_retrieve centralKey ;;
  vault <-
    settle (Token_getAssociatedTokenAddress
              ASSOCIATED_TOKEN_PROGRAM_ID TOKEN_PROGRAM_ID
              (CentralState.tokenMint centralState) stakePool) ;;
  let createVaultIx :=
    Token_createAssociatedTokenAccountInstruction
      ASSOCIATED_TOKEN_PROGRAM_ID TOKEN_PROGRAM_ID
      (CentralState.tokenMint centralState) vault stakePool feePayer in
  minimumStakeAmount <- new_BN minimumStakeAmount ;;
  let ix :=
    getInstruction createStakePoolInstruction
      [ ("nonce", FNumber nonce);
        ("name", FString name);
        ("owner", FBuffer (toBuffer owner));
        ("minimumStakeAmount", FBN minimumStakeAmount);
        ("destination", FBuffer (toBuffer destination)) ]
      programId
      [stakePool; SystemProgram_programId; feePayer; vault] in
  Return [createVaultIx; ix].

Definition signBond (sellerIndex : Z) (seller bondAccount
  programId : PublicKey) : Async TransactionInstruction :=
  sellerIndex <- new_BN sellerIndex ;;
  let ix :=
    getInstruction signBondInstruction
      [("sellerIndex", FBN sellerIndex)]
      programId [seller; bondAccount] in
  Return ix.

Definition stake (stakeAccount sourceToken : PublicKey) (amount : Z)
  (programId : PublicKey) : Async TransactionInstruction :=
  stake <- StakeAccount_retrieve stakeAccount ;;
  stakePool <- StakePool_retrieve (StakeAccount.stakePool stake) ;;
  amount <- new_BN amount ;;
  let ix :=
    getInstruction stakeInstruction
      [("amount", FBN amount)]
      programId
      [ stakeAccount;
        StakeAccount.stakePool stake;
        StakeAccount.owner stake;
        sourceToken;
        TOKEN_PROGRAM_ID;
        StakePool.vault stakePool ] in
  Return ix.

Definition unlockBondTokens (bondAccount destinationToken
  programId : PublicKey) : Async TransactionInstruction :=
  let '(centralKey, _) := CentralState_getKey programId in
  centralState <- CentralState_retrieve centralKey ;;
  bond <- BondAccount_retrieve bondAccount ;;
  let ix :=
    getInstruction unlockBondTokensInstruction []
      programId
      [ bondAccount;
        BondAccount.owner bond;
        CentralState.tokenMint centralState;
        destinationToken;
        centralKey;
        TOKEN_PROGRAM_ID ] in
  Return ix.

Definition unstake (stakeAccount destinationToken : PublicKey) (amount : Z)
  (programId : PublicKey) : Async TransactionInstruction :=
  stake <- StakeAccount_retrieve stakeAccount ;;
  stakePool <- StakePool_retrieve (StakeAccount.stakePool stake) ;;
  amount <- new_BN amount ;;
  let ix :=
    getInstruction unstakeInstruction
      [("amount", FBN amount)]
      programId
      [ stakeAccount;
        StakeAccount.stakePool stake;
        StakeAccount.owner stake;
        destinationToken;
        TOKEN_PROGRAM_ID;
        StakePool.vault stakePool ] in
  Return ix.

Definition adminMint (amount : Z) (destinationToken programId : PublicKey)
  : Async TransactionInstruction :=
  let '(centralKey, _) := CentralState_getKey programId in
  centralState <- CentralState_retrieve centralKey ;;
  amount <- new_BN amount ;;
  let ix :=
    getInstruction adminMintInstruction
      [("amount", FBN amount)]
      programId
      [ CentralState.authority centralState;
        CentralState.tokenMint centralState;
        destinationToken;
        centralKey;
        TOKEN_PROGRAM_ID ] in
  Return ix.

End Builders.

Local Close Scope string_scope.

(** ** Shapes of filters and payloads used in the statements *)

(** A filter comparing the byte at offset 0 with the single byte [d]. *)
Definition discriminator_filter (f : MemcmpFilter) (d : Z) : Prop :=
  offset f = 0 /\ pattern f = Some [d].

(** A filter comparing the bytes at [off] with the base-58 text of [owner]. *)
Definition owner_filter (f : MemcmpFilter) (off : Z) (owner : PublicKey)
  : Prop :=
  offset f = off /\ bytes f = toBase58 owner.

(** Two endpoints that give the same reply to every request. *)
Definition same_replies (r1 r2 : Remote) : Prop :=
  (forall key, fst (rpc_getAccountInfo r1 key) = fst (rpc_getAccountInfo r2 key))
  /\ (forall program filters,
         fst (rpc_getProgramAccounts r1 program filters)
         = fst (rpc_getProgramAccounts r2 program filters)).

(** Modelled from the spec: the layout of the [createBond] payload after its
    tag, 32 bytes for each key and eight for each amount, in the order in
    which [createBond] lists the properties. *)
Definition createBond_schema : list FieldType :=
  [ TBuffer 32; TBN; TBN; TBuffer 32; TBuffer 32; TBN; TBN; TBN; TBN; TBN ].

(** A JavaScript [number] that holds a non-negative integer exactly; [new
    BN(number)] accepts it and keeps its value. *)
Definition safe_integer (n : Z) : Prop := 0 <= n < 2 ^ 53.

(** ** A sample instantiation of the imports and of the endpoint *)

(** [new PublicKey(text)] *)
Definition key_of_base58 (text : string) : PublicKey :=
  match bs58_decode text with
  | Some b => b
  | None => []
  end.

Definition slice (from len : nat) (bs : list Z) : list Z :=
  firstn len (skipn from bs).

Definition LENGTH_MISMATCH : Error := "Unexpected length of input"%string.
Definition NOT_FOUND : Error := "Account not found"%string.
Definition OWNER_CANNOT_SIGN : Error := "Owner cannot sign"%string.

Definition sample_deserialize (kind : AccountKind) (bs : list Z)
  : Error + Decoded kind :=
  match kind return Error + Decoded kind with
  | KCentralState =>
      if (List.length bs =? 65)%nat
      then inr (CentralState.mk (slice 1 32 bs) (slice 33 32 bs))
      else inl LENGTH_MISMATCH
  | KStakePool =>
      if (List.length bs =? 65)%nat
      then inr (StakePool.mk (slice 1 32 bs) (slice 33 32 bs))
      else inl LENGTH_MISMATCH
  | KBondAccount =>
      if (List.length bs =? 97)%nat
      then inr (BondAccount.mk (slice 1 32 bs) (slice 33 32 bs)
                  (slice 65 32 bs))
      else inl LENGTH_MISMATCH
  | KStakeAccount =>
      if (List.length bs =? 65)%nat
      then inr (StakeAccount.mk (slice 1 32 bs) (slice 33 32 bs))
      else inl LENGTH_MISMATCH
  end.

Definition sample_derive (seed : Z) (program : PublicKey) : PublicKey * Z :=
  (map (fun b => (b + seed) mod 256) program, 255).

Definition sample_tag (kind : InstructionKind) : Z :=
  match kind with
  | changeInflationInstruction => 0
  | changePoolMinimumInstruction => 1
  | claimBondRewardsInstruction => 2
  | claimBondInstruction => 3
  | claimPoolRewardsInstruction => 4
  | claimRewardsInstruction => 5
  | closeStakeAccountInstruction => 6
  | closeStakePoolInstruction => 7
  | crankInstruction => 8
  | createBondInstruction => 9
  | createCentralStateInstruction => 10
  | createStakeAccountInstruction => 11
  | createStakePoolInstruction => 12
  | signBondInstruction => 13
  | stakeInstruction => 14
  | unlockBondTokensInstruction => 15
  | unstakeInstruction => 16
  | adminMintInstruction => 17
  end.

Definition sample_key (b : Z) : PublicKey := repeat b 32.

#[local] Instance sample_imports : Imports :=
  { CentralState_getKey := sample_derive 1;
    StakePool_getKey := fun program _ _ => sample_derive 2 program;
    StakeAccount_getKey := fun program _ _ => sample_derive 3 program;
    BondAccount_getKey := fun program _ _ => sample_derive 4 program;
    deserialize := sample_deserialize;
    not_found := fun _ => NOT_FOUND;
    tag_of := sample_tag;
    account_flags := fun _ i => (Nat.eqb i 0, true);
    ACCESS_PROGRAM_ID := sample_key 9;
    TOKEN_PROGRAM_ID :=
      key_of_base58 "TokenkegQfeZyiNwAJbNbGKPFXCWuBvf9Ss623VQ5DA";
    ASSOCIATED_TOKEN_PROGRAM_ID :=
      key_of_base58 "ATokenGPvbdGVxr1b2hvZbsiqW5xWH25efTNsLJA8knL";
    SystemProgram_programId :=
      key_of_base58 "11111111111111111111111111111111";
    Token_getAssociatedTokenAddress :=
      fun _ _ mint wallet =>
        if bytes_eqb wallet (sample_key 21)
        then inl OWNER_CANNOT_SIGN
        else inr (fst (sample_derive 5 (wallet ++ mint)));
    Token_createAssociatedTokenAccountInstruction :=
      fun associated token mint address wallet payer =>
        {| keys :=
             map (fun k => {| pubkey := k; isSigner := false;
                              isWritable := true |})
               [payer; address; wallet; mint; token];
           programId := associated;
           data := [] |} }.

Definition sample_account (discriminator : Z) (fields : list PublicKey)
  : AccountInfo.t :=
  AccountInfo.mk (sample_key 9) (discriminator :: List.concat fields).

(** The central state at the derived address, and accounts of the program
    whose first byte runs from 1 to 6; those at keys 50, 51, 70 and 71 hold
    the key 61 at offset 1. *)
Definition sample_remote : Remote :=
  {| accounts :=
       [ (sample_key 10, sample_account 6 [sample_key 20; sample_key 21]);
         (sample_key 30, sample_account 1 [sample_key 40; sample_key 41]);
         (sample_key 31, sample_account 2 [sample_key 40; sample_key 42]);
         (sample_key 32, sample_account 3 [sample_key 60; sample_key 30]);
         (sample_key 50, sample_account 3 [sample_key 61; sample_key 30]);
         (sample_key 51, sample_account 4 [sample_key 61; sample_key 30]);
         (sample_key 70,
          sample_account 5 [sample_key 61; sample_key 30; sample_key 80]);
         (sample_key 71,
          sample_account 6 [sample_key 61; sample_key 30; sample_key 80]) ];
     failure := fun _ => None;
     served := [] |}.

(** The same chain behind an endpoint that has already served a read. *)
Definition sample_busy : Remote :=
  {| accounts := accounts sample_remote;
     failure := failure sample_remote;
     served := [GetAccountInfo (sample_key 10)] |}.

(** The same chain behind an endpoint that refuses every request. *)
Definition sample_offline : Remote :=
  {| accounts := accounts sample_remote;
     failure := fun _ => Some "fetch failed"%string;
     served := [] |}.

(** ** Shapes used in the further statements *)

(** The accounts of an instruction, in order. *)
Definition pubkeys (ix : TransactionInstruction) : list PublicKey :=
  map pubkey (keys ix).

(** Steps that are all single-account reads. *)
Definition account_reads_only (l : list Step) : Prop :=
  Forall (fun s => exists kind key, s = Retrieve kind key) l.

Definition at_most_two_reads (l : list Step) : Prop :=
  (List.length l <= 2)%nat /\ account_reads_only l.

(** An endpoint whose only account is a 20-byte stake account of key 61. *)
Definition sample_short : Remote :=
  {| accounts :=
       [ (sample_key 52,
          AccountInfo.mk (sample_key 9) (3 :: repeat 61 19)) ];
     failure := fun _ => None;
     served := [] |}.

(** An endpoint with two pools laid out with the owner at offset 32, one of
    the key 61 and one of the key 60. *)
Definition sample_pools : Remote :=
  {| accounts :=
       [ (sample_key 33,
          AccountInfo.mk (sample_key 9)
            (1 :: repeat 0 31 ++ sample_key 61 ++ sample_key 41));
         (sample_key 34,
          AccountInfo.mk (sample_key 9)
            (1 :: repeat 0 31 ++ sample_key 60 ++ sample_key 42)) ];
     failure := fun _ => None;
     served := [] |}.

(** The queries with the byte that their filter at offset 0 stands for. *)
Section QueryTable.

Context `{Imports}.

Definition query_table (owner : PublicKey)
  : list (Async (list (PublicKey * AccountInfo.t)) * Z) :=
  [ (getAllStakePools, 1);
    (getStakePools owner, 1);
    (getAllInactiveStakePools, 2);
    (getStakeAccounts owner, 3);
    (getAllInactiveBonds, 4);
    (getAllActiveBonds, 5);
    (getBondAccounts owner, 5) ].

End QueryTable.

(** * Properties *)

(** ** Base-58 text *)

Lemma bytes_eqb_eq (a b : list Z) : bytes_eqb a b = true <-> a = b.
Proof.
  revert b; induction a as [|x a IH]; intros [|y b]; simpl;
    try (split; [discriminate | congruence]); try tauto.
  rewrite andb_true_iff, Z.eqb_eq, IH.
  split; [intros [-> ->]; reflexivity | intros E; inversion E; auto].
Qed.

Lemma bytes_eqb_refl (a : list Z) : bytes_eqb a a = true.
Proof. apply bytes_eqb_eq; reflexivity. Qed.

Lemma b58_digit_char (d : Z) :
  0 <= d < BASE -> b58_digit (b58_char d) = Some d.
Proof.
  unfold BASE; intros Hd.
  assert (E : d = Z.of_nat (Z.to_nat d)) by lia.
  assert (Hn : (Z.to_nat d < 58)%nat) by lia.
  rewrite E; clear E Hd.
  generalize dependent (Z.to_nat d); intros n Hn.
  do 58 (destruct n as [|n]; [reflexivity|]).
  lia.
Qed.

Lemma value_of_snoc (base : Z) (ds : list Z) (d : Z) :
  value_of base (ds ++ [d]) = value_of base ds * base + d.
Proof. unfold value_of; rewrite fold_left_app; reflexivity. Qed.

Lemma value_of_bound (base : Z) (ds : list Z) :
  2 <= base ->
  Forall (fun d => 0 <= d < base) ds ->
  0 <= value_of base ds < base ^ Z.of_nat (List.length ds).
Proof.
  intros Hb; induction ds as [|d ds IH] using rev_ind; intros Hds.
  - simpl; unfold value_of; simpl; lia.
  - apply Forall_app in Hds as [Hds Hd].
    inversion Hd as [|? ? Hd' _]; subst.
    specialize (IH Hds).
    rewrite value_of_snoc, length_app, Nat2Z.inj_add; simpl List.length.
    rewrite Z.pow_add_r, Z.pow_1_r by lia.
    nia.
Qed.

Lemma value_of_pos (base : Z) (ds : list Z) :
  2 <= base ->
  Forall (fun d => 0 <= d < base) ds ->
  (forall d ds', ds = d :: ds' -> d <> 0) ->
  ds <> [] ->
  0 < value_of base ds.
Proof.
  intros Hb; induction ds as [|d ds IH] using rev_ind; intros Hds Hhd Hne.
  - congruence.
  - apply Forall_app in Hds as [Hds Hd].
    inversion Hd as [|? ? Hd' _]; subst.
    rewrite value_of_snoc.
    destruct ds as [|d0 ds].
    + unfold value_of; simpl.
      specialize (Hhd d [] eq_refl); lia.
    + assert (0 < value_of base (d0 :: ds)).
      { apply IH; auto; try discriminate.
        intros d1 ds1 E; inversion E; subst.
        apply (Hhd d1 (ds1 ++ [d])); reflexivity. }
      nia.
Qed.

Lemma digits_of_zero (fuel : nat) (base : Z) (acc : list Z) :
  digits_of fuel base 0 acc = acc.
Proof. destruct fuel; reflexivity. Qed.

Lemma digits_of_acc (fuel : nat) (base n : Z) (acc : list Z) :
  digits_of fuel base n acc = digits_of fuel base n [] ++ acc.
Proof.
  revert n acc; induction fuel as [|fuel IH]; intros n acc; simpl.
  - reflexivity.
  - destruct (n =? 0); [reflexivity|].
    rewrite IH, (IH _ [n mod base]), <- app_assoc; reflexivity.
Qed.

Lemma digits_of_step (fuel : nat) (base n : Z) :
  n <> 0 ->
  digits_of (S fuel) base n []
  = digits_of fuel base (n / base) [] ++ [n mod base].
Proof.
  intros Hn; simpl.
  destruct (Z.eqb_spec n 0); [contradiction|].
  apply digits_of_acc.
Qed.

Lemma half_fuel (fuel : nat) (base n : Z) :
  2 <= base -> 0 <= n < 2 ^ Z.of_nat (S fuel) ->
  0 <= n / base < 2 ^ Z.of_nat fuel.
Proof.
  intros Hb Hn.
  rewrite Nat2Z.inj_succ, Z.pow_succ_r in Hn by lia.
  split; [apply Z.div_pos; lia|].
  apply Z.div_lt_upper_bound; [lia|].
  assert (0 < 2 ^ Z.of_nat fuel) by (apply Z.pow_pos_nonneg; lia).
  nia.
Qed.

Lemma digits_of_value (fuel : nat) (base n : Z) :
  2 <= base -> 0 <= n < 2 ^ Z.of_nat fuel ->
  value_of base (digits_of fuel base n []) = n.
Proof.
  intros Hb; revert n; induction fuel as [|fuel IH]; intros n Hn.
  - simpl in *. unfold value_of; simpl; lia.
  - destruct (Z.eq_dec n 0) as [->|Hn0].
    + rewrite digits_of_zero; reflexivity.
    + rewrite digits_of_step, value_of_snoc by assumption.
      rewrite IH by (apply half_fuel; assumption).
      pose proof (Z.div_mod n base ltac:(lia)); lia.
Qed.

Lemma digits_of_range (fuel : nat) (base n : Z) :
  2 <= base -> 0 <= n ->
  Forall (fun d => 0 <= d < base) (digits_of fuel base n []).
Proof.
  intros Hb; revert n; induction fuel as [|fuel IH]; intros n Hn.
  - constructor.
  - destruct (Z.eq_dec n 0) as [->|Hn0].
    + rewrite digits_of_zero; constructor.
    + rewrite digits_of_step by assumption.
      apply Forall_app; split.
      * apply IH, Z.div_pos; lia.
      * constructor; [apply Z.mod_pos_bound; lia | constructor].
Qed.

Lemma digits_of_head (fuel : nat) (base n : Z) :
  2 <= base -> 0 <= n < 2 ^ Z.of_nat fuel ->
  forall d ds, digits_of fuel base n [] = d :: ds -> d <> 0.
Proof.
  intros Hb; revert n; induction fuel as [|fuel IH]; intros n Hn d ds E.
  - discriminate.
  - destruct (Z.eq_dec n 0) as [->|Hn0].
    + rewrite digits_of_zero in E; discriminate.
    + rewrite digits_of_step in E by assumption.
      pose proof (half_fuel fuel base n Hb Hn) as Hq.
      destruct (digits_of fuel base (n / base) []) as [|d0 ds0] eqn:Eq.
      * simpl in E; inversion E; subst.
        destruct (Z.eq_dec (n / base) 0) as [Hz|Hz].
        -- pose proof (Z.div_mod n base ltac:(lia)); lia.
        -- pose proof (digits_of_value fuel base (n / base) Hb Hq) as Hv.
           rewrite Eq in Hv; unfold value_of in Hv; simpl in Hv; lia.
      * simpl in E; inversion E; subst.
        eapply IH; eauto.
Qed.

Lemma digits_of_canonical (base : Z) (ds : list Z) :
  2 <= base ->
  Forall (fun d => 0 <= d < base) ds ->
  (forall d ds', ds = d :: ds' -> d <> 0) ->
  forall fuel, value_of base ds < 2 ^ Z.of_nat fuel ->
  digits_of fuel base (value_of base ds) [] = ds.
Proof.
  intros Hb; induction ds as [|d ds IH] using rev_ind; intros Hds Hhd fuel Hv.
  - apply digits_of_zero.
  - pose proof (value_of_pos base (ds ++ [d]) Hb Hds Hhd
                  ltac:(destruct ds; discriminate)) as Hpos.
    apply Forall_app in Hds as [Hds Hd].
    inversion Hd as [|? ? Hd' _]; subst.
    pose proof (value_of_bound base ds Hb Hds) as [Hlo _].
    rewrite value_of_snoc in *.
    destruct fuel as [|fuel]; [simpl in Hv; lia|].
    rewrite digits_of_step by lia.
    assert (Hq : (value_of base ds * base + d) / base = value_of base ds).
    { symmetry; apply (Z.div_unique _ _ _ d); lia. }
    assert (Hr : (value_of base ds * base + d) mod base = d).
    { symmetry; apply (Z.mod_unique _ _ (value_of base ds)); lia. }
    rewrite Hq, Hr; f_equal.
    apply IH; auto.
    + intros d1 ds1 E; subst; apply (Hhd d1 (ds1 ++ [d])); reflexivity.
    + pose proof (half_fuel fuel base (value_of base ds * base + d) Hb
                    ltac:(lia)) as Hh.
      rewrite Hq in Hh; lia.
Qed.

Lemma leading_zeros_split (ds : list Z) :
  ds = repeat 0 (leading_zeros ds) ++ skipn (leading_zeros ds) ds.
Proof.
  induction ds as [|d ds IH]; simpl; [reflexivity|].
  destruct (Z.eqb_spec d 0) as [->|]; simpl; [f_equal; exact IH | reflexivity].
Qed.

Lemma leading_zeros_head (ds : list Z) (d : Z) (ds' : list Z) :
  skipn (leading_zeros ds) ds = d :: ds' -> d <> 0.
Proof.
  induction ds as [|d0 ds IH]; simpl; [discriminate|].
  destruct (Z.eqb_spec d0 0); simpl; [exact IH | congruence].
Qed.

Lemma leading_zeros_repeat (z : nat) (ds : list Z) :
  (forall d ds', ds = d :: ds' -> d <> 0) ->
  leading_zeros (repeat 0 z ++ ds) = z
  /\ skipn z (repeat 0 z ++ ds) = ds.
Proof.
  intros Hhd; induction z as [|z [IH1 IH2]]; simpl.
  - split; [|reflexivity].
    destruct ds as [|d ds]; [reflexivity|]; simpl.
    destruct (Z.eqb_spec d 0); [exfalso; eapply Hhd; eauto | reflexivity].
  - split; [f_equal; exact IH1 | exact IH2].
Qed.

Lemma map_option_digits (z : nat) (ds : list Z) :
  Forall (fun d => 0 <= d < BASE) ds ->
  map_option b58_digit (repeat LEADER z ++ map b58_char ds)
  = Some (repeat 0 z ++ ds).
Proof.
  intros Hds; induction z as [|z IH]; simpl.
  - induction Hds as [|d ds Hd _ IH]; simpl; [reflexivity|].
    rewrite b58_digit_char, IH by assumption; reflexivity.
  - rewrite IH; reflexivity.
Qed.

Lemma pow_256 (n : nat) : 256 ^ Z.of_nat n = 2 ^ Z.of_nat (8 * n).
Proof.
  rewrite Nat2Z.inj_mul, Z.pow_mul_r by lia; reflexivity.
Qed.

Lemma pow_58 (n : nat) : BASE ^ Z.of_nat n <= 2 ^ Z.of_nat (6 * n).
Proof.
  rewrite Nat2Z.inj_mul, Z.pow_mul_r by lia.
  apply Z.pow_le_mono_l; unfold BASE; simpl; lia.
Qed.

(** Decoding the base-58 text of a byte string gives the byte string back. *)
Lemma bs58_decode_encode (source : list Z) :
  bytes_ok source -> bs58_decode (bs58_encode source) = Some source.
Proof.
  intros Hsrc; unfold bs58_encode, bs58_decode.
  set (zeroes := leading_zeros source).
  set (rest := skipn zeroes source).
  set (b58 := digits_of (8 * List.length rest) BASE (value_of 256 rest) []).
  assert (Hrest : Forall (fun d => 0 <= d < 256) rest).
  { unfold rest. rewrite (leading_zeros_split source) in Hsrc.
    apply Forall_app in Hsrc as [_ Hs]; exact Hs. }
  pose proof (value_of_bound 256 rest ltac:(lia) Hrest) as Hv.
  rewrite pow_256 in Hv.
  assert (Hb58 : Forall (fun d => 0 <= d < BASE) b58)
    by (apply digits_of_range; unfold BASE; lia).
  assert (Hval : value_of BASE b58 = value_of 256 rest)
    by (apply digits_of_value; unfold BASE; lia).
  assert (Hhd : forall d ds', b58 = d :: ds' -> d <> 0)
    by (apply (digits_of_head (8 * List.length rest) BASE (value_of 256 rest));
        unfold BASE; lia).
  rewrite list_ascii_of_string_of_list_ascii, map_option_digits by assumption.
  destruct (leading_zeros_repeat zeroes b58 Hhd) as [-> ->].
  rewrite Hval, digits_of_canonical; try lia; try assumption.
  - fold rest zeroes. unfold rest, zeroes.
    rewrite <- leading_zeros_split; reflexivity.
  - intros d ds'; apply leading_zeros_head.
  - pose proof (value_of_bound BASE b58 ltac:(unfold BASE; lia) Hb58) as Hv'.
    pose proof (pow_58 (List.length b58)); lia.
Qed.

Lemma pattern_toBase58 (off : Z) (owner : PublicKey) :
  bytes_ok owner ->
  pattern {| offset := off; bytes := toBase58 owner |} = Some (toBuffer owner).
Proof. intros Hk; unfold pattern, toBase58; simpl; apply bs58_decode_encode, Hk. Qed.

(** ** Local conversions *)

Lemma new_BN_accepts (number : Z) :
  Z.abs number < 2 ^ 53 -> new_BN number = Return number.
Proof.
  intros Hn; unfold new_BN.
  destruct (Z.ltb_spec (Z.abs number) (2 ^ 53)); [reflexivity | lia].
Qed.

Lemma new_BN_rejects (number : Z) :
  2 ^ 53 <= Z.abs number -> new_BN number = Throw ASSERTION_FAILED.
Proof.
  intros Hn; unfold new_BN.
  destruct (Z.ltb_spec (Z.abs number) (2 ^ 53)); [lia | reflexivity].
Qed.

(** ** Runs against the endpoint *)

Section RunProperties.

Context `{Imports}.

Lemma retrieve_snd (r : Remote) (kind : AccountKind) (key : PublicKey) :
  snd (retrieve r kind key) = serve r (GetAccountInfo key).
Proof. reflexivity. Qed.

Lemma retrieve_fst (r : Remote) (kind : AccountKind) (key : PublicKey) :
  fst (retrieve r kind key)
  = match fst (rpc_getAccountInfo r key) with
    | inl e => inl e
    | inr None => inl (not_found kind)
    | inr (Some info) => deserialize kind (AccountInfo.data info)
    end.
Proof. reflexivity. Qed.

Lemma scan_snd (r : Remote) (program : PublicKey)
  (filters : list MemcmpFilter) :
  snd (rpc_getProgramAccounts r program filters)
  = serve r (GetProgramAccounts program filters).
Proof. reflexivity. Qed.

Lemma step_error_serve (r : Remote) (q : Request) (s : Step) :
  step_error (serve r q) s = step_error r s.
Proof. destruct s; reflexivity. Qed.

Lemma same_replies_serve (r1 r2 : Remote) (q1 q2 : Request) :
  same_replies r1 r2 -> same_replies (serve r1 q1) (serve r2 q2).
Proof. intros [Hread Hscan]; split; intros; [apply Hread | apply Hscan]. Qed.

(** One unfolding of [run] at each await, by the outcome of the step. *)
Lemma run_retrieve {A : Type} (kind : AccountKind) (key : PublicKey)
  (cont : Decoded kind -> Async A) (r : Remote) :
  run (AwaitRetrieve kind key cont) r
  = match fst (retrieve r kind key) with
    | inl e => (inl e, serve r (GetAccountInfo key))
    | inr v => run (cont v) (serve r (GetAccountInfo key))
    end.
Proof.
  pose proof (retrieve_snd r kind key) as Hs.
  change (run (AwaitRetrieve kind key cont) r)
    with (match retrieve r kind key with
          | (inl e, r') => (inl e, r')
          | (inr v, r') => run (cont v) r'
          end).
  destruct (retrieve r kind key) as [[e|v] r']; simpl in *; subst;
    reflexivity.
Qed.

Lemma run_scan {A : Type} (program : PublicKey) (filters : list MemcmpFilter)
  (cont : list (PublicKey * AccountInfo.t) -> Async A) (r : Remote) :
  run (AwaitGetProgramAccounts program filters cont) r
  = match fst (rpc_getProgramAccounts r program filters) with
    | inl e => (inl e, serve r (GetProgramAccounts program filters))
    | inr v => run (cont v) (serve r (GetProgramAccounts program filters))
    end.
Proof.
  pose proof (scan_snd r program filters) as Hs.
  change (run (AwaitGetProgramAccounts program filters cont) r)
    with (match rpc_getProgramAccounts r program filters with
          | (inl e, r') => (inl e, r')
          | (inr v, r') => run (cont v) r'
          end).
  destruct (rpc_getProgramAccounts r program filters) as [[e|v] r'];
    simpl in *; subst; reflexivity.
Qed.

Lemma steps_retrieve {A : Type} (kind : AccountKind) (key : PublicKey)
  (cont : Decoded kind -> Async A) (r : Remote) :
  steps (AwaitRetrieve kind key cont) r
  = Retrieve kind key ::
    match fst (retrieve r kind key) with
    | inl _ => []
    | inr v => steps (cont v) (serve r (GetAccountInfo key))
    end.
Proof.
  pose proof (retrieve_snd r kind key) as Hs.
  change (steps (AwaitRetrieve kind key cont) r)
    with (Retrieve kind key ::
          match retrieve r kind key with
          | (inl _, _) => []
          | (inr v, r') => steps (cont v) r'
          end).
  destruct (retrieve r kind key) as [[e|v] r']; simpl in *; subst;
    reflexivity.
Qed.

Lemma steps_scan {A : Type} (program : PublicKey)
  (filters : list MemcmpFilter)
  (cont : list (PublicKey * AccountInfo.t) -> Async A) (r : Remote) :
  steps (AwaitGetProgramAccounts program filters cont) r
  = Scan program filters ::
    match fst (rpc_getProgramAccounts r program filters) with
    | inl _ => []
    | inr v => steps (cont v) (serve r (GetProgramAccounts program filters))
    end.
Proof.
  pose proof (scan_snd r program filters) as Hs.
  change (steps (AwaitGetProgramAccounts program filters cont) r)
    with (Scan program filters ::
          match rpc_getProgramAccounts r program filters with
          | (inl _, _) => []
          | (inr v, r') => steps (cont v) r'
          end).
  destruct (rpc_getProgramAccounts r program filters) as [[e|v] r'];
    simpl in *; subst; reflexivity.
Qed.

Lemma run_bind {A B : Type} (m : Async A) (k : A -> Async B) (r : Remote) :
  run (bind m k) r
  = match run m r with
    | (inl e, r') => (inl e, r')
    | (inr a, r') => run (k a) r'
    end.
Proof.
  revert r; induction m as [a|e|kind key cont IH|program filters cont IH];
    intros r.
  - reflexivity.
  - reflexivity.
  - simpl bind. rewrite !run_retrieve.
    destruct (fst (retrieve r kind key)); [reflexivity | apply IH].
  - simpl bind. rewrite !run_scan.
    destruct (fst (rpc_getProgramAccounts r program filters));
      [reflexivity | apply IH].
Qed.

(** The endpoint after a run: the same chain, and the requests of the
    awaited steps served. *)
Lemma run_remote {A : Type} (p : Async A) (r : Remote) :
  accounts (snd (run p r)) = accounts r
  /\ failure (snd (run p r)) = failure r
  /\ served (snd (run p r)) = served r ++ map request_of (steps p r).
Proof.
  revert r; induction p as [a|e|kind key cont IH|program filters cont IH];
    intros r.
  - simpl; rewrite app_nil_r; auto.
  - simpl; rewrite app_nil_r; auto.
  - rewrite run_retrieve, steps_retrieve.
    destruct (fst (retrieve r kind key)) as [e|v]; simpl.
    + auto.
    + destruct (IH v (serve r (GetAccountInfo key))) as (Ha & Hf & Hs).
      rewrite Ha, Hf, Hs; simpl; rewrite <- app_assoc; auto.
  - rewrite run_scan, steps_scan.
    destruct (fst (rpc_getProgramAccounts r program filters)) as [e|v]; simpl.
    + auto.
    + destruct (IH v (serve r (GetProgramAccounts program filters)))
        as (Ha & Hf & Hs).
      rewrite Ha, Hf, Hs; simpl; rewrite <- app_assoc; auto.
Qed.

Lemma thrown_retrieve {A : Type} (kind : AccountKind) (key : PublicKey)
  (cont : Decoded kind -> Async A) (r : Remote) :
  thrown (AwaitRetrieve kind key cont) r
  = match fst (retrieve r kind key) with
    | inl _ => None
    | inr v => thrown (cont v) (serve r (GetAccountInfo key))
    end.
Proof.
  pose proof (retrieve_snd r kind key) as Hs.
  change (thrown (AwaitRetrieve kind key cont) r)
    with (match retrieve r kind key with
          | (inl _, _) => None
          | (inr v, r') => thrown (cont v) r'
          end).
  destruct (retrieve r kind key) as [[e|v] r']; simpl in *; subst;
    reflexivity.
Qed.

Lemma thrown_scan {A : Type} (program : PublicKey)
  (filters : list MemcmpFilter)
  (cont : list (PublicKey * AccountInfo.t) -> Async A) (r : Remote) :
  thrown (AwaitGetProgramAccounts program filters cont) r
  = match fst (rpc_getProgramAccounts r program filters) with
    | inl _ => None
    | inr v => thrown (cont v) (serve r (GetProgramAccounts program filters))
    end.
Proof.
  pose proof (scan_snd r program filters) as Hs.
  change (thrown (AwaitGetProgramAccounts program filters cont) r)
    with (match rpc_getProgramAccounts r program filters with
          | (inl _, _) => None
          | (inr v, r') => thrown (cont v) r'
          end).
  destruct (rpc_getProgramAccounts r program filters) as [[e|v] r'];
    simpl in *; subst; reflexivity.
Qed.

(** A failed run failed at its last step, with that step's error, or after
    all its steps, with the exception it threw itself. *)
Lemma run_error {A : Type} (p : Async A) (r : Remote) (e : Error) :
  fst (run p r) = inl e ->
  (exists pre s,
      steps p r = pre ++ [s]
      /\ step_error r s = Some e
      /\ Forall (fun s' => step_error r s' = None) pre)
  \/ (thrown p r = Some e
      /\ Forall (fun s' => step_error r s' = None) (steps p r)).
Proof.
  revert r; induction p as [a|e0|kind key cont IH|program filters cont IH];
    intros r.
  - discriminate.
  - intros [= ->]; right; split; [reflexivity | constructor].
  - rewrite run_retrieve, steps_retrieve, thrown_retrieve.
    destruct (fst (retrieve r kind key)) as [e0|v] eqn:E.
    + intros [= ->]. left. exists [], (Retrieve kind key).
      cbn [step_error app]; rewrite E; auto.
    + intros Hrun.
      destruct (IH v _ Hrun) as [(pre & s & Hs & He & Hpre)|[Ht Hall]].
      * left. exists (Retrieve kind key :: pre), s.
        rewrite Hs; rewrite step_error_serve in He. repeat split; auto.
        constructor; [cbn [step_error]; rewrite E; reflexivity|].
        revert Hpre; apply Forall_impl; intros s' Hs'.
        rewrite step_error_serve in Hs'; exact Hs'.
      * right. split; [exact Ht|].
        constructor; [cbn [step_error]; rewrite E; reflexivity|].
        revert Hall; apply Forall_impl; intros s' Hs'.
        rewrite step_error_serve in Hs'; exact Hs'.
  - rewrite run_scan, steps_scan, thrown_scan.
    destruct (fst (rpc_getProgramAccounts r program filters)) as [e0|v] eqn:E.
    + intros [= ->]. left. exists [], (Scan program filters).
      cbn [step_error app]; rewrite E; auto.
    + intros Hrun.
      destruct (IH v _ Hrun) as [(pre & s & Hs & He & Hpre)|[Ht Hall]].
      * left. exists (Scan program filters :: pre), s.
        rewrite Hs; rewrite step_error_serve in He. repeat split; auto.
        constructor; [cbn [step_error]; rewrite E; reflexivity|].
        revert Hpre; apply Forall_impl; intros s' Hs'.
        rewrite step_error_serve in Hs'; exact Hs'.
      * right. split; [exact Ht|].
        constructor; [cbn [step_error]; rewrite E; reflexivity|].
        revert Hall; apply Forall_impl; intros s' Hs'.
        rewrite step_error_serve in Hs'; exact Hs'.
Qed.

(** The result of a run depends on the endpoint through its replies only. *)
Lemma run_same_replies {A : Type} (p : Async A) (r1 r2 : Remote) :
  same_replies r1 r2 -> fst (run p r1) = fst (run p r2).
Proof.
  revert r1 r2;
    induction p as [a|e|kind key cont IH|program filters cont IH];
    intros r1 r2 Hsame.
  - reflexivity.
  - reflexivity.
  - rewrite !run_retrieve, !retrieve_fst.
    destruct Hsame as [Hread Hscan]; rewrite (Hread key).
    destruct (fst (rpc_getAccountInfo r2 key)) as [e|[info|]];
      try reflexivity.
    destruct (deserialize kind (AccountInfo.data info)); [reflexivity|].
    apply IH, same_replies_serve; split; assumption.
  - rewrite !run_scan.
    destruct Hsame as [Hread Hscan]; rewrite (Hscan program filters).
    destruct (fst (rpc_getProgramAccounts r2 program filters));
      [reflexivity|].
    apply IH, same_replies_serve; split; assumption.
Qed.

End RunProperties.

(** ** The builders *)

Section BuilderProperties.

Context `{Imports}.

Lemma retrieve_serve (r : Remote) (q : Request) (kind : AccountKind)
  (key : PublicKey) :
  fst (retrieve (serve r q) kind key) = fst (retrieve r kind key).
Proof. reflexivity. Qed.

Ltac await_all :=
  unfold CentralState_retrieve, StakePool_retrieve, BondAccount_retrieve,
    StakeAccount_retrieve, connection_getProgramAccounts;
  cbn [bind];
  repeat (rewrite ?run_retrieve, ?steps_retrieve, ?thrown_retrieve, ?run_scan,
            ?steps_scan, ?thrown_scan, ?retrieve_serve).

(** The cases of a call: what its reads reply and whether its local
    conversions throw. *)
Ltac cases_of_call :=
  repeat match goal with
         | |- context [CentralState_getKey ?p] =>
             destruct (CentralState_getKey p)
         | |- context [StakePool_getKey ?p ?o ?d] =>
             destruct (StakePool_getKey p o d)
         | |- context [StakeAccount_getKey ?p ?o ?s] =>
             destruct (StakeAccount_getKey p o s)
         | |- context [BondAccount_getKey ?p ?b ?n] =>
             destruct (BondAccount_getKey p b n)
         end;
  unfold new_BN, settle; await_all;
  repeat (match goal with
          | |- context [match fst (retrieve ?r ?k ?key) with _ => _ end] =>
              destruct (fst (retrieve r k key)) eqn:?
          | |- context [Z.abs ?n <? 2 ^ 53] =>
              destruct (Z.ltb_spec (Z.abs n) (2 ^ 53))
          | |- context [Token_getAssociatedTokenAddress ?a ?b ?c ?d] =>
              destruct (Token_getAssociatedTokenAddress a b c d) eqn:?
          end; await_all);
  cbn [thrown steps run fst snd].

(** C1 (as the code behaves): whenever the central state and the stake
    pool are both retrieved and decoded, [claimPoolRewards] resolves to no
    value: the instruction it builds is not returned. *)
Theorem claimPoolRewards_resolves_to_undefined
  (stakePoolAccount rewardsDestination programId : PublicKey) (r : Remote)
  (centralState : CentralState.t) (stakePool : StakePool.t) :
  fst (retrieve r KCentralState (fst (CentralState_getKey programId)))
  = inr centralState ->
  fst (retrieve r KStakePool stakePoolAccount) = inr stakePool ->
  fst (run (claimPoolRewards stakePoolAccount rewardsDestination programId) r)
  = inr tt.
Proof.
  intros Hcentral Hpool. unfold claimPoolRewards.
  destruct (CentralState_getKey programId) as [centralKey nonce].
  cbn [fst] in Hcentral. await_all.
  rewrite Hcentral. await_all. rewrite Hpool. reflexivity.
Qed.

(** C5 (amended): no operation catches or rewrites an error.  An operation
    that fails, fails at the last step it awaited, with exactly the error
    that this remote read or decode step raised, every earlier step having
    succeeded; or, all its steps having succeeded, with an exception thrown
    locally.  The queries and the builders without a number argument throw
    nothing themselves ([claimBondRewards] fails with the error of
    retrieving the central state, or else of retrieving the bond); a builder
    with a number argument throws only the assertion of [new BN], for a
    magnitude of 2^53 or more; [createStakePool] throws that or the error
    of the derivation of the vault address. *)
Theorem errors_pass_through :
  (forall (A : Type) (p : Async A) (r : Remote) (e : Error),
      fst (run p r) = inl e ->
      (exists pre s,
          steps p r = pre ++ [s]
          /\ step_error r s = Some e
          /\ Forall (fun s' => step_error r s' = None) pre)
      \/ (thrown p r = Some e
          /\ Forall (fun s' => step_error r s' = None) (steps p r)))
  /\ (forall (bondAccount rewardsDestination programId : PublicKey)
        (r : Remote) (e : Error),
        fst (run (claimBondRewards bondAccount rewardsDestination programId)
               r) = inl e ->
        let centralKey := fst (CentralState_getKey programId) in
        fst (retrieve r KCentralState centralKey) = inl e
        \/ ((exists centralState,
                fst (retrieve r KCentralState centralKey) = inr centralState)
            /\ fst (retrieve r KBondAccount bondAccount) = inl e))
  /\ (forall r : Remote,
        (forall b d p, thrown (claimBondRewards b d p) r = None)
        /\ (forall b u q p, thrown (claimBond b u q p) r = None)
        /\ (forall s d p, thrown (claimPoolRewards s d p) r = None)
        /\ (forall s d p, thrown (claimRewards s d p) r = None)
        /\ (forall s p, thrown (closeStakeAccount s p) r = None)
        /\ (forall s p, thrown (closeStakePool s p) r = None)
        /\ (forall s p, thrown (crank s p) r = None)
        /\ (forall s o f p, thrown (createStakeAccount s o f p) r = None)
        /\ (forall b d p, thrown (unlockBondTokens b d p) r = None)
        /\ (forall o, thrown (getStakeAccounts o) r = None)
        /\ (forall o, thrown (getStakePools o) r = None)
        /\ (forall o, thrown (getBondAccounts o) r = None)
        /\ thrown getAllStakePools r = None
        /\ thrown getAllInactiveStakePools r = None
        /\ thrown getAllInactiveBonds r = None
        /\ thrown getAllActiveBonds r = None)
  /\ (forall (r : Remote) (e : Error),
        (forall n d p,
            thrown (adminMint n d p) r = Some e ->
            e = ASSERTION_FAILED /\ 2 ^ 53 <= Z.abs n)
        /\ (forall n p,
               thrown (changeInflation n p) r = Some e ->
               e = ASSERTION_FAILED /\ 2 ^ 53 <= Z.abs n)
        /\ (forall k n p,
               thrown (changePoolMinimum k n p) r = Some e ->
               e = ASSERTION_FAILED /\ 2 ^ 53 <= Z.abs n)
        /\ (forall s b a1 a2 q t u1 u2 u3 u4 k i p,
               thrown (createBond s b a1 a2 q t u1 u2 u3 u4 k i p) r = Some e ->
               e = ASSERTION_FAILED)
        /\ (forall n a f m p,
               thrown (createCentralState n a f m p) r = Some e ->
               e = ASSERTION_FAILED /\ 2 ^ 53 <= Z.abs n)
        /\ (forall i s b p,
               thrown (signBond i s b p) r = Some e ->
               e = ASSERTION_FAILED /\ 2 ^ 53 <= Z.abs i)
        /\ (forall s t n p,
               thrown (stake s t n p) r = Some e ->
               e = ASSERTION_FAILED /\ 2 ^ 53 <= Z.abs n)
        /\ (forall s t n p,
               thrown (unstake s t n p) r = Some e ->
               e = ASSERTION_FAILED /\ 2 ^ 53 <= Z.abs n)
        /\ (forall name o d m f p,
               thrown (createStakePool name o d m f p) r = Some e ->
               (e = ASSERTION_FAILED /\ 2 ^ 53 <= Z.abs m)
               \/ exists centralState,
                   fst (retrieve r KCentralState
                          (fst (CentralState_getKey p))) = inr centralState
                   /\ Token_getAssociatedTokenAddress
                        ASSOCIATED_TOKEN_PROGRAM_ID TOKEN_PROGRAM_ID
                        (CentralState.tokenMint centralState)
                        (fst (StakePool_getKey p o d)) = inl e)).
Proof.
  split; [intros A p r e; apply run_error|].
  split.
  { intros bondAccount rewardsDestination programId r e.
    unfold claimBondRewards.
    destruct (CentralState_getKey programId) as [centralKey nonce].
    cbn [fst]. await_all.
    destruct (fst (retrieve r KCentralState centralKey)) as [e0|centralState].
    - intros [= ->]; left; reflexivity.
    - await_all.
      destruct (fst (retrieve r KBondAccount bondAccount)) as [e1|bond].
      + intros [= ->]; right; split; [eexists|]; reflexivity.
      + discriminate. }
  split.
  { intros r.
    repeat match goal with |- _ /\ _ => split end; intros.
    - unfold claimBondRewards; cases_of_call; reflexivity.
    - unfold claimBond; cases_of_call; reflexivity.
    - unfold claimPoolRewards; cases_of_call; reflexivity.
    - unfold claimRewards; cases_of_call; reflexivity.
    - unfold closeStakeAccount; cases_of_call; reflexivity.
    - unfold closeStakePool; cases_of_call; reflexivity.
    - unfold crank; cases_of_call; reflexivity.
    - unfold createStakeAccount; cases_of_call; reflexivity.
    - unfold unlockBondTokens; cases_of_call; reflexivity.
    - unfold getStakeAccounts; await_all.
      destruct (fst (rpc_getProgramAccounts r _ _)); reflexivity.
    - unfold getStakePools; await_all.
      destruct (fst (rpc_getProgramAccounts r _ _)); reflexivity.
    - unfold getBondAccounts; await_all.
      destruct (fst (rpc_getProgramAccounts r _ _)); reflexivity.
    - unfold getAllStakePools; await_all.
      destruct (fst (rpc_getProgramAccounts r _ _)); reflexivity.
    - unfold getAllInactiveStakePools; await_all.
      destruct (fst (rpc_getProgramAccounts r _ _)); reflexivity.
    - unfold getAllInactiveBonds; await_all.
      destruct (fst (rpc_getProgramAccounts r _ _)); reflexivity.
    - unfold getAllActiveBonds; await_all.
      destruct (fst (rpc_getProgramAccounts r _ _)); reflexivity. }
  intros r e.
  repeat match goal with |- _ /\ _ => split end; intros *.
  - unfold adminMint; cases_of_call; try discriminate.
    intros [= <-]; split; [reflexivity | lia].
  - unfold changeInflation; cases_of_call; try discriminate.
    intros [= <-]; split; [reflexivity | lia].
  - unfold changePoolMinimum; cases_of_call; try discriminate.
    intros [= <-]; split; [reflexivity | lia].
  - unfold createBond; cases_of_call; try discriminate;
      intros [= <-]; reflexivity.
  - unfold createCentralState; cases_of_call; try discriminate.
    intros [= <-]; split; [reflexivity | lia].
  - unfold signBond; cases_of_call; try discriminate.
    intros [= <-]; split; [reflexivity | lia].
  - unfold stake; cases_of_call; try discriminate.
    intros [= <-]; split; [reflexivity | lia].
  - unfold unstake; cases_of_call; try discriminate.
    intros [= <-]; split; [reflexivity | lia].
  - unfold createStakePool; cases_of_call; try discriminate;
      intros [= <-];
      first [ left; split; [reflexivity | lia]
            | right; eexists; split; eassumption ].
Qed.

(** C6: two calls with the same arguments against endpoints that give the
    same reply to every read produce the same result, account list and
    payload included; so do in particular [stake] and [crank]. *)
Theorem builders_are_deterministic :
  forall r1 r2 : Remote,
    same_replies r1 r2 ->
    (forall (A : Type) (p : Async A), fst (run p r1) = fst (run p r2))
    /\ (forall stakeAccount sourceToken amount programId ix1 ix2,
           fst (run (stake stakeAccount sourceToken amount programId) r1)
           = inr ix1 ->
           fst (run (stake stakeAccount sourceToken amount programId) r2)
           = inr ix2 ->
           keys ix1 = keys ix2 /\ data ix1 = data ix2)
    /\ (forall stakePoolAccount programId,
           fst (run (crank stakePoolAccount programId) r1)
           = fst (run (crank stakePoolAccount programId) r2)).
Proof.
  intros r1 r2 Hsame; split; [|split].
  - intros A p; apply run_same_replies, Hsame.
  - intros stakeAccount sourceToken amount programId ix1 ix2 H1 H2.
    rewrite (run_same_replies _ r1 r2 Hsame), H2 in H1.
    injection H1 as ->; split; reflexivity.
  - intros stakePoolAccount programId; apply run_same_replies, Hsame.
Qed.

(** C8: a call leaves the accounts of the endpoint (and its failures) as
    they were; all it adds is the served read requests of the steps it
    awaited: account reads for [unstake], one scan for
    [getAllStakePools]. *)
Theorem remote_state_is_preserved :
  (forall (A : Type) (p : Async A) (r : Remote),
      accounts (snd (run p r)) = accounts r
      /\ failure (snd (run p r)) = failure r
      /\ served (snd (run p r)) = served r ++ map request_of (steps p r))
  /\ (forall stakeAccount destinationToken amount programId r,
         Forall (fun s => exists kind key, s = Retrieve kind key)
           (steps (unstake stakeAccount destinationToken amount programId) r))
  /\ (forall r, exists filters,
         steps getAllStakePools r = [Scan ACCESS_PROGRAM_ID filters]).
Proof.
  split; [intros A p r; apply run_remote|]. split.
  - intros stakeAccount destinationToken amount programId r.
    unfold unstake. cases_of_call; repeat (constructor; eauto).
  - intros r. unfold getAllStakePools. await_all.
    destruct (fst (rpc_getProgramAccounts r _ _)); eexists; reflexivity.
Qed.

(** C10: [crank] awaits no remote step: on every endpoint it returns the
    instruction built from its two arguments and the derived central
    state address, and leaves the endpoint untouched. *)
Theorem crank_reads_nothing
  (stakePoolAccount programId : PublicKey) (r : Remote) :
  run (crank stakePoolAccount programId) r
  = (inr (getInstruction crankInstruction [] programId
            [stakePoolAccount; fst (CentralState_getKey programId)]), r)
  /\ steps (crank stakePoolAccount programId) r = []
  /\ forall r', fst (run (crank stakePoolAccount programId) r')
                = fst (run (crank stakePoolAccount programId) r).
Proof.
  unfold crank.
  destruct (CentralState_getKey programId) as [centralKey nonce].
  repeat split.
Qed.

End BuilderProperties.

(** ** Payloads *)

Lemma le_bytes_length (width : nat) (n : Z) :
  List.length (le_bytes width n) = width.
Proof. revert n; induction width; intros n; simpl; auto. Qed.

Lemma le_value_le_bytes (width : nat) (n : Z) :
  0 <= n < 256 ^ Z.of_nat width -> le_value (le_bytes width n) = n.
Proof.
  revert n; induction width as [|width IH]; intros n Hn.
  - simpl in *; lia.
  - rewrite Nat2Z.inj_succ, Z.pow_succ_r in Hn by lia.
    cbn [le_bytes le_value]. rewrite IH.
    + pose proof (Z.div_mod n 256 ltac:(lia)); lia.
    + split; [apply Z.div_pos; lia | apply Z.div_lt_upper_bound; lia].
Qed.

Lemma take_app (a b : list Z) : take (List.length a) (a ++ b) = Some (a, b).
Proof.
  unfold take. rewrite length_app.
  destruct (Nat.leb_spec (List.length a) (List.length a + List.length b));
    [|lia].
  rewrite firstn_app, Nat.sub_diag, firstn_all, skipn_app, Nat.sub_diag,
    skipn_all; simpl.
  rewrite app_nil_r; reflexivity.
Qed.

Lemma take_le_bytes (width : nat) (n : Z) (rest : list Z) :
  take width (le_bytes width n ++ rest) = Some (le_bytes width n, rest).
Proof.
  rewrite <- (le_bytes_length width n) at 1; apply take_app.
Qed.

Lemma bytes_string_string_bytes (s : string) :
  bytes_string (string_bytes s) = s.
Proof.
  unfold bytes_string, string_bytes. rewrite map_map.
  rewrite (map_ext _ (fun c => c)), map_id.
  - apply string_of_list_ascii_of_string.
  - intros c; rewrite Nat2Z.id; apply ascii_nat_embedding.
Qed.

Lemma string_bytes_length (s : string) :
  List.length (string_bytes s) = String.length s.
Proof.
  unfold string_bytes; rewrite length_map.
  induction s; simpl; auto.
Qed.

Lemma decode_encode_field (f : Field) (rest : list Z) :
  field_ok f ->
  decode_field (field_type f) (encode_field f ++ rest) = Some (f, rest).
Proof.
  destruct f as [n|n|b|s]; intros Hok;
    cbn [field_type encode_field field_ok decode_field] in *.
  - rewrite take_le_bytes, le_value_le_bytes; [reflexivity | exact Hok].
  - rewrite Z.abs_eq by lia.
    rewrite take_le_bytes, le_value_le_bytes; [reflexivity|].
    change (Z.of_nat 8) with 8; lia.
  - rewrite take_app; reflexivity.
  - rewrite <- app_assoc, take_le_bytes, le_value_le_bytes.
    + rewrite Nat2Z.id, take_app, bytes_string_string_bytes; reflexivity.
    + rewrite string_bytes_length; change (Z.of_nat 4) with 4; lia.
Qed.

Lemma decode_encode_fields (props : Props) :
  props_ok props ->
  decode_fields (schema_of props)
    (List.concat (map (fun p => encode_field (snd p)) props))
  = Some (map snd props).
Proof.
  unfold schema_of.
  induction 1 as [|[name f] props Hf _ IH]; [reflexivity|].
  cbn [map List.concat decode_fields snd] in *.
  rewrite decode_encode_field, IH by exact Hf; reflexivity.
Qed.

Lemma deserialize_serialize (tag : Z) (props : Props) :
  0 <= tag < 256 -> props_ok props ->
  deserialize_payload (schema_of props) (serialize tag props)
  = Some (tag, map snd props).
Proof.
  intros Htag Hprops; unfold serialize, deserialize_payload.
  cbn [le_bytes app].
  rewrite decode_encode_fields by assumption.
  rewrite Z.mod_small by lia; reflexivity.
Qed.

Section PayloadProperties.

Context `{Imports}.

(** C7 (amended): decoding the payload of an instruction object gives back
    its tag and the values of its properties, whenever these fit their
    places in the layout (a [BN] from 0 to below 2^64); for [createBond],
    called with 32-byte keys and with numbers that are non-negative integers
    below 2^53, decoding the payload of the returned instruction yields the
    ten values it was called with. *)
Theorem payload_round_trip :
  (forall kind props program accts,
      0 <= tag_of kind < 256 -> props_ok props ->
      deserialize_payload (schema_of props)
        (data (getInstruction kind props program accts))
      = Some (tag_of kind, map snd props))
  /\ (forall seller buyer totalAmountSold totalQuoteAmount quoteMint
        sellerTokenAccount unlockStartDate unlockPeriod unlockAmount
        lastUnlockTime stakePool sellerIndex programId r,
        0 <= tag_of createBondInstruction < 256 ->
        key_ok buyer -> key_ok quoteMint -> key_ok sellerTokenAccount ->
        safe_integer totalAmountSold -> safe_integer totalQuoteAmount ->
        safe_integer unlockStartDate -> safe_integer unlockPeriod ->
        safe_integer unlockAmount -> safe_integer lastUnlockTime ->
        safe_integer sellerIndex ->
        exists ix,
          fst (run (createBond seller buyer totalAmountSold totalQuoteAmount
                      quoteMint sellerTokenAccount unlockStartDate
                      unlockPeriod unlockAmount lastUnlockTime stakePool
                      sellerIndex programId) r) = inr ix
          /\ deserialize_payload createBond_schema (data ix)
             = Some (tag_of createBondInstruction,
                     [ FBuffer (toBuffer buyer);
                       FBN totalAmountSold;
                       FBN totalQuoteAmount;
                       FBuffer (toBuffer quoteMint);
                       FBuffer (toBuffer sellerTokenAccount);
                       FBN unlockStartDate;
                       FBN unlockPeriod;
                       FBN unlockAmount;
                       FBN lastUnlockTime;
                       FBN sellerIndex ])).
Proof.
  split.
  - intros kind props program accts Htag Hprops.
    apply deserialize_serialize; assumption.
  - intros seller buyer totalAmountSold totalQuoteAmount quoteMint
      sellerTokenAccount unlockStartDate unlockPeriod unlockAmount
      lastUnlockTime stakePool sellerIndex programId r Htag
      [Lb Hb] [Lq Hq] [Ls Hs] H1 H2 H3 H4 H5 H6 H7.
    unfold createBond.
    destruct (BondAccount_getKey programId buyer totalAmountSold)
      as [bondAccount nonce].
    rewrite !new_BN_accepts by (unfold safe_integer in *; lia).
    eexists; split; [reflexivity|].
    cbn [data getInstruction].
    match goal with
    | |- deserialize_payload _ (serialize _ ?props) = _ =>
        replace createBond_schema with (schema_of props)
    end.
    + apply deserialize_serialize; [assumption|].
      unfold safe_integer in *.
      repeat (constructor;
              [cbn [snd field_ok bytes_ok]; first [assumption | lia]|]);
        constructor.
    + unfold schema_of, createBond_schema, toBuffer; simpl.
      rewrite Lb, Lq, Ls; reflexivity.
Qed.

End PayloadProperties.

(** ** The account queries *)

Lemma memcmp_first_byte (text : string) (d : Z) (account_data : list Z) :
  pattern {| offset := 0; bytes := text |} = Some [d] ->
  memcmp_matches {| offset := 0; bytes := text |} account_data = true
  <-> exists rest, account_data = d :: rest.
Proof.
  unfold memcmp_matches; intros ->; cbn [offset].
  destruct account_data as [|b rest].
  - split; [discriminate | intros [rest E]; discriminate].
  - cbn -[Z.eqb]. rewrite andb_true_r, Z.eqb_eq.
    split; [intros ->; eauto | intros [rest' E]; congruence].
Qed.

(** The accounts that a scan returns are those of the program that every
    filter matches. *)
Lemma scan_spec (r : Remote) (program : PublicKey)
  (filters : list MemcmpFilter) (found : list (PublicKey * AccountInfo.t)) :
  fst (rpc_getProgramAccounts r program filters) = inr found ->
  forall a,
    In a found
    <-> In a (accounts r)
        /\ AccountInfo.owner (snd a) = program
        /\ forall f, In f filters ->
             memcmp_matches f (AccountInfo.data (snd a)) = true.
Proof.
  unfold rpc_getProgramAccounts; cbn [fst].
  destruct (failure r _); [discriminate|].
  destruct (forallb _ filters); [|discriminate].
  intros [= <-] a.
  rewrite filter_In, andb_true_iff, bytes_eqb_eq, forallb_forall.
  tauto.
Qed.

Section QueryProperties.

Context `{Imports}.

Lemma query_steps (program : PublicKey) (filters : list MemcmpFilter)
  (r : Remote) :
  steps (connection_getProgramAccounts program filters) r
  = [Scan program filters].
Proof.
  unfold connection_getProgramAccounts. rewrite steps_scan.
  destruct (fst (rpc_getProgramAccounts r program filters)); reflexivity.
Qed.

Lemma query_run (program : PublicKey) (filters : list MemcmpFilter)
  (r : Remote) :
  fst (run (connection_getProgramAccounts program filters) r)
  = fst (rpc_getProgramAccounts r program filters).
Proof.
  unfold connection_getProgramAccounts. rewrite run_scan.
  destruct (fst (rpc_getProgramAccounts r program filters)); reflexivity.
Qed.

(** C2 (amended): [getStakeAccounts] sends exactly two filters: the text
    "4" at offset 0, which is the single byte 3, and the base-58 text of
    the owner at offset 1, which is the owner's 32 bytes. *)
Theorem getStakeAccounts_filters (owner : PublicKey) (r : Remote) :
  exists f0 f1,
    steps (getStakeAccounts owner) r = [Scan ACCESS_PROGRAM_ID [f0; f1]]
    /\ bytes f0 = "4"%string
    /\ discriminator_filter f0 3
    /\ owner_filter f1 1 owner
    /\ (bytes_ok owner -> pattern f1 = Some (toBuffer owner)).
Proof.
  do 2 eexists. unfold getStakeAccounts. rewrite query_steps.
  split; [reflexivity|].
  repeat split. apply pattern_toBase58.
Qed.

(** C3 (amended): [getBondAccounts] filters on the text "6" at offset 0,
    the single byte 5, and on the owner's base-58 text at offset 1;
    [getAllInactiveBonds] on the text "5", the byte 4, at offset 0; and
    [getAllActiveBonds] on the text "6", the byte 5, at offset 0. *)
Theorem bond_query_filters (owner : PublicKey) (r : Remote) :
  (exists f0 f1,
      steps (getBondAccounts owner) r = [Scan ACCESS_PROGRAM_ID [f0; f1]]
      /\ bytes f0 = "6"%string
      /\ discriminator_filter f0 5
      /\ owner_filter f1 1 owner
      /\ (bytes_ok owner -> pattern f1 = Some (toBuffer owner)))
  /\ (exists f,
         steps getAllInactiveBonds r = [Scan ACCESS_PROGRAM_ID [f]]
         /\ bytes f = "5"%string
         /\ discriminator_filter f 4)
  /\ (exists f,
         steps getAllActiveBonds r = [Scan ACCESS_PROGRAM_ID [f]]
         /\ bytes f = "6"%string
         /\ discriminator_filter f 5).
Proof.
  split; [|split].
  - do 2 eexists. unfold getBondAccounts. rewrite query_steps.
    split; [reflexivity|].
    repeat split. apply pattern_toBase58.
  - eexists. unfold getAllInactiveBonds. rewrite query_steps.
    repeat split.
  - eexists. unfold getAllActiveBonds. rewrite query_steps.
    repeat split.
Qed.

(** C4 (amended): [getStakePools] filters on the text "2" at offset 0, the
    single byte 1, and on the owner's base-58 text at offset
    1+1+2+4+8+8+8 = 32; [getAllInactiveStakePools] on the text "3", the
    byte 2, at offset 0. *)
Theorem stake_pool_query_filters (owner : PublicKey) (r : Remote) :
  (exists f0 f1,
      steps (getStakePools owner) r = [Scan ACCESS_PROGRAM_ID [f0; f1]]
      /\ bytes f0 = "2"%string
      /\ discriminator_filter f0 1
      /\ owner_filter f1 32 owner
      /\ (bytes_ok owner -> pattern f1 = Some (toBuffer owner)))
  /\ (exists f,
         steps getAllInactiveStakePools r = [Scan ACCESS_PROGRAM_ID [f]]
         /\ bytes f = "3"%string
         /\ discriminator_filter f 2).
Proof.
  split.
  - do 2 eexists. unfold getStakePools. rewrite query_steps.
    split; [reflexivity|].
    repeat split. apply pattern_toBase58.
  - eexists. unfold getAllInactiveStakePools. rewrite query_steps.
    repeat split.
Qed.

(** C9 (amended): [getAllStakePools] sends exactly one filter, the text
    "2" at offset 0, which is the single byte 1; the accounts it returns
    are the accounts of the program whose first byte is 1, so none whose
    first byte is 2 or 3; the filter of [getAllInactiveStakePools] is the
    text "3", the byte 2. *)
Theorem getAllStakePools_filter (r : Remote) :
  (exists f,
      steps getAllStakePools r = [Scan ACCESS_PROGRAM_ID [f]]
      /\ bytes f = "2"%string
      /\ discriminator_filter f 1)
  /\ (forall found,
         fst (run getAllStakePools r) = inr found ->
         forall key info,
           In (key, info) found
           <-> In (key, info) (accounts r)
               /\ AccountInfo.owner info = ACCESS_PROGRAM_ID
               /\ exists rest, AccountInfo.data info = 1 :: rest)
  /\ (exists f,
         steps getAllInactiveStakePools r = [Scan ACCESS_PROGRAM_ID [f]]
         /\ bytes f = "3"%string
         /\ discriminator_filter f 2).
Proof.
  split; [|split].
  - eexists. unfold getAllStakePools. rewrite query_steps.
    repeat split.
  - intros found Hrun key info.
    unfold getAllStakePools in Hrun. rewrite query_run in Hrun.
    rewrite (scan_spec _ _ _ _ Hrun (key, info)); cbn [snd].
    rewrite <- (memcmp_first_byte "2" 1) by reflexivity.
    split; intros (Ha & Ho & Hm); repeat split; auto.
    + apply Hm; left; reflexivity.
    + intros f [<-|[]]; exact Hm.
  - eexists. unfold getAllInactiveStakePools. rewrite query_steps.
    repeat split.
Qed.

End QueryProperties.

(** ** The statements at the sample endpoint *)

Lemma sample_key_ok (b : Z) : 0 <= b < 256 -> key_ok (sample_key b).
Proof.
  intros Hb; split; [reflexivity|].
  unfold sample_key, bytes_ok; simpl.
  repeat (apply Forall_cons; [exact Hb|]); apply Forall_nil.
Qed.

Lemma claimPoolRewards_resolves_to_undefined_witness :
  fst (run (claimPoolRewards (sample_key 30) (sample_key 99) (sample_key 9))
         sample_remote) = inr tt.
Proof.
  apply (claimPoolRewards_resolves_to_undefined
           (sample_key 30) (sample_key 99) (sample_key 9) sample_remote
           (CentralState.mk (sample_key 20) (sample_key 21))
           (StakePool.mk (sample_key 40) (sample_key 41)));
    reflexivity.
Defined.

(** The pattern at offset 0 of [getStakeAccounts] is not the byte 4: of the
    two accounts that hold the owner at offset 1, the query returns the one
    whose first byte is 3 and not the one whose first byte is 4. *)
Lemma getStakeAccounts_discriminator_4_refuted :
  ~ (exists f0 f1,
        steps (getStakeAccounts (sample_key 61)) sample_remote
        = [Scan ACCESS_PROGRAM_ID [f0; f1]]
        /\ discriminator_filter f0 4
        /\ owner_filter f1 1 (sample_key 61))
  /\ fst (run (getStakeAccounts (sample_key 61)) sample_remote)
     = inr [(sample_key 50, sample_account 3 [sample_key 61; sample_key 30])].
Proof.
  split; [|vm_compute; reflexivity].
  intros (f0 & f1 & E & [_ Hp] & _).
  unfold getStakeAccounts in E; rewrite query_steps in E.
  injection E as <- _. vm_compute in Hp. discriminate.
Qed.

Lemma getStakeAccounts_filters_witness :
  exists f0 f1,
    steps (getStakeAccounts (sample_key 61)) sample_remote
    = [Scan ACCESS_PROGRAM_ID [f0; f1]]
    /\ pattern f0 = Some [3]
    /\ pattern f1 = Some (sample_key 61).
Proof.
  destruct (getStakeAccounts_filters (sample_key 61) sample_remote)
    as (f0 & f1 & E & _ & [_ H0] & _ & H1).
  exists f0, f1; repeat split; [exact E | exact H0 |].
  apply H1, sample_key_ok; lia.
Defined.

(** The bond queries do not compare with the bytes 6 and 5: the owner's
    bond that [getBondAccounts] returns is the one whose first byte is 5,
    not the one whose first byte is 6. *)
Lemma bond_discriminators_6_5_refuted :
  ~ ((exists f0 f1,
         steps (getBondAccounts (sample_key 61)) sample_remote
         = [Scan ACCESS_PROGRAM_ID [f0; f1]]
         /\ discriminator_filter f0 6
         /\ owner_filter f1 1 (sample_key 61))
     /\ (exists f,
            steps getAllInactiveBonds sample_remote
            = [Scan ACCESS_PROGRAM_ID [f]]
            /\ discriminator_filter f 5)
     /\ (exists f,
            steps getAllActiveBonds sample_remote
            = [Scan ACCESS_PROGRAM_ID [f]]
            /\ discriminator_filter f 6))
  /\ fst (run (getBondAccounts (sample_key 61)) sample_remote)
     = inr [(sample_key 70,
             sample_account 5 [sample_key 61; sample_key 30; sample_key 80])].
Proof.
  split; [|vm_compute; reflexivity].
  intros [(f0 & f1 & E & [_ Hp] & _) _].
  unfold getBondAccounts in E; rewrite query_steps in E.
  injection E as <- _. vm_compute in Hp. discriminate.
Qed.

Lemma bond_query_filters_witness :
  exists f0 f1,
    steps (getBondAccounts (sample_key 61)) sample_remote
    = [Scan ACCESS_PROGRAM_ID [f0; f1]]
    /\ pattern f0 = Some [5]
    /\ pattern f1 = Some (sample_key 61).
Proof.
  destruct (bond_query_filters (sample_key 61) sample_remote)
    as [(f0 & f1 & E & _ & [_ H0] & _ & H1) _].
  exists f0, f1; repeat split; [exact E | exact H0 |].
  apply H1, sample_key_ok; lia.
Defined.

(** The stake-pool queries do not compare with the bytes 2 and 3: the
    account that [getAllInactiveStakePools] returns is the one whose first
    byte is 2, and neither of those whose first byte is 3. *)
Lemma stake_pool_discriminators_2_3_refuted :
  ~ ((exists f0 f1,
         steps (getStakePools (sample_key 61)) sample_remote
         = [Scan ACCESS_PROGRAM_ID [f0; f1]]
         /\ discriminator_filter f0 2
         /\ owner_filter f1 32 (sample_key 61))
     /\ (exists f,
            steps getAllInactiveStakePools sample_remote
            = [Scan ACCESS_PROGRAM_ID [f]]
            /\ discriminator_filter f 3))
  /\ fst (run getAllInactiveStakePools sample_remote)
     = inr [(sample_key 31, sample_account 2 [sample_key 40; sample_key 42])].
Proof.
  split; [|vm_compute; reflexivity].
  intros [(f0 & f1 & E & [_ Hp] & _) _].
  unfold getStakePools in E; rewrite query_steps in E.
  injection E as <- _. vm_compute in Hp. discriminate.
Qed.

Lemma stake_pool_query_filters_witness :
  exists f0 f1,
    steps (getStakePools (sample_key 61)) sample_remote
    = [Scan ACCESS_PROGRAM_ID [f0; f1]]
    /\ pattern f0 = Some [1]
    /\ offset f1 = 32
    /\ pattern f1 = Some (sample_key 61).
Proof.
  destruct (stake_pool_query_filters (sample_key 61) sample_remote)
    as [(f0 & f1 & E & _ & [_ H0] & [Ho _] & H1) _].
  exists f0, f1; repeat split; [exact E | exact H0 | exact Ho |].
  apply H1, sample_key_ok; lia.
Defined.

(** The filter of [getAllStakePools] is not the byte 2: the query returns
    the account whose first byte is 1 and not the one whose first byte
    is 2. *)
Lemma getAllStakePools_discriminator_2_refuted :
  ~ (exists f,
        steps getAllStakePools sample_remote = [Scan ACCESS_PROGRAM_ID [f]]
        /\ discriminator_filter f 2)
  /\ fst (run getAllStakePools sample_remote)
     = inr [(sample_key 30, sample_account 1 [sample_key 40; sample_key 41])].
Proof.
  split; [|vm_compute; reflexivity].
  intros (f & E & [_ Hp]).
  unfold getAllStakePools in E; rewrite query_steps in E.
  injection E as <-. vm_compute in Hp. discriminate.
Qed.

Lemma getAllStakePools_filter_witness :
  In (sample_key 30, sample_account 1 [sample_key 40; sample_key 41])
    (accounts sample_remote)
  /\ AccountInfo.owner (sample_account 1 [sample_key 40; sample_key 41])
     = ACCESS_PROGRAM_ID
  /\ exists rest,
      AccountInfo.data (sample_account 1 [sample_key 40; sample_key 41])
      = 1 :: rest.
Proof.
  destruct (getAllStakePools_filter sample_remote) as (_ & Hfound & _).
  apply (Hfound
           [(sample_key 30, sample_account 1 [sample_key 40; sample_key 41])]).
  - vm_compute; reflexivity.
  - left; reflexivity.
Defined.

(** [adminMint] with the amount 2^53 fails with the assertion of [new BN]
    although its one read succeeded: no remote read or decode step raised
    the error it fails with. *)
Lemma adminMint_assertion_refutes_pass_through :
  fst (run (adminMint (2 ^ 53) (sample_key 99) (sample_key 9)) sample_remote)
  = inl ASSERTION_FAILED
  /\ ~ (exists pre s,
           steps (adminMint (2 ^ 53) (sample_key 99) (sample_key 9))
             sample_remote = pre ++ [s]
           /\ step_error sample_remote s = Some ASSERTION_FAILED
           /\ Forall (fun s' => step_error sample_remote s' = None) pre).
Proof.
  split; [vm_compute; reflexivity|].
  intros (pre & s & Hs & He & _).
  assert (E : steps (adminMint (2 ^ 53) (sample_key 99) (sample_key 9))
                sample_remote
              = [Retrieve KCentralState (sample_key 10)])
    by (vm_compute; reflexivity).
  rewrite E in Hs.
  destruct pre as [|x pre].
  - injection Hs as <-. vm_compute in He. discriminate.
  - destruct pre; discriminate.
Qed.

Lemma errors_pass_through_witness :
  ((exists pre s,
       steps (claimBondRewards (sample_key 72) (sample_key 99) (sample_key 9))
         sample_remote = pre ++ [s]
       /\ step_error sample_remote s = Some NOT_FOUND
       /\ Forall (fun s' => step_error sample_remote s' = None) pre)
   \/ (thrown (claimBondRewards (sample_key 72) (sample_key 99) (sample_key 9))
         sample_remote = Some NOT_FOUND
       /\ Forall (fun s' => step_error sample_remote s' = None)
            (steps (claimBondRewards (sample_key 72) (sample_key 99)
                      (sample_key 9)) sample_remote)))
  /\ (fst (retrieve sample_offline KCentralState
             (fst (CentralState_getKey (sample_key 9))))
      = inl "fetch failed"%string
      \/ ((exists centralState,
              fst (retrieve sample_offline KCentralState
                     (fst (CentralState_getKey (sample_key 9))))
              = inr centralState)
          /\ fst (retrieve sample_offline KBondAccount (sample_key 70))
             = inl "fetch failed"%string))
  /\ (ASSERTION_FAILED = ASSERTION_FAILED /\ 2 ^ 53 <= Z.abs (2 ^ 53)).
Proof.
  split; [|split].
  - apply (proj1 errors_pass_through). vm_compute; reflexivity.
  - apply (proj1 (proj2 errors_pass_through) (sample_key 70) (sample_key 99)
             (sample_key 9) sample_offline).
    vm_compute; reflexivity.
  - refine (proj1 (proj2 (proj2 (proj2 errors_pass_through)) sample_remote
                     ASSERTION_FAILED)
              (2 ^ 53) (sample_key 99) (sample_key 9) _).
    vm_compute; reflexivity.
Defined.

Lemma builders_are_deterministic_witness :
  same_replies sample_remote sample_busy
  /\ fst (run (stake (sample_key 50) (sample_key 99) 1000 (sample_key 9))
            sample_remote)
     = fst (run (stake (sample_key 50) (sample_key 99) 1000 (sample_key 9))
              sample_busy).
Proof.
  assert (Hsame : same_replies sample_remote sample_busy)
    by (split; intros; reflexivity).
  split; [exact Hsame|].
  apply (proj1 (builders_are_deterministic sample_remote sample_busy Hsame)).
Defined.

(** [createBond] with the amount -1 returns an instruction whose payload
    holds the magnitude 1, and with the amount 2^53 it returns none. *)
Lemma createBond_amounts_refute_round_trip :
  (exists ix,
      fst (run (createBond (sample_key 1) (sample_key 2) (-1) 2000
                  (sample_key 3) (sample_key 4) 1650000000 86400 10
                  1660000000 (sample_key 30) 0 (sample_key 9)) sample_remote)
      = inr ix
      /\ deserialize_payload createBond_schema (data ix)
         = Some (tag_of createBondInstruction,
                 [ FBuffer (sample_key 2); FBN 1; FBN 2000;
                   FBuffer (sample_key 3); FBuffer (sample_key 4);
                   FBN 1650000000; FBN 86400; FBN 10; FBN 1660000000;
                   FBN 0 ])
      /\ deserialize_payload createBond_schema (data ix)
         <> Some (tag_of createBondInstruction,
                  [ FBuffer (sample_key 2); FBN (-1); FBN 2000;
                    FBuffer (sample_key 3); FBuffer (sample_key 4);
                    FBN 1650000000; FBN 86400; FBN 10; FBN 1660000000;
                    FBN 0 ]))
  /\ fst (run (createBond (sample_key 1) (sample_key 2) (2 ^ 53) 2000
                 (sample_key 3) (sample_key 4) 1650000000 86400 10
                 1660000000 (sample_key 30) 0 (sample_key 9)) sample_remote)
     = inl ASSERTION_FAILED.
Proof.
  split; [|vm_compute; reflexivity].
  eexists; split; [vm_compute; reflexivity|].
  split; [vm_compute; reflexivity|].
  vm_compute; discriminate.
Qed.

Lemma payload_round_trip_witness :
  exists ix,
    fst (run (createBond (sample_key 1) (sample_key 2) 1000 2000
                (sample_key 3) (sample_key 4) 1650000000 86400 10
                1660000000 (sample_key 30) 0 (sample_key 9)) sample_remote)
    = inr ix
    /\ deserialize_payload createBond_schema (data ix)
       = Some (9, [ FBuffer (sample_key 2); FBN 1000; FBN 2000;
                    FBuffer (sample_key 3); FBuffer (sample_key 4);
                    FBN 1650000000; FBN 86400; FBN 10; FBN 1660000000;
                    FBN 0 ]).
Proof.
  refine (proj2 payload_round_trip
            (sample_key 1) (sample_key 2) 1000 2000 (sample_key 3)
            (sample_key 4) 1650000000 86400 10 1660000000 (sample_key 30) 0
            (sample_key 9) sample_remote _ _ _ _ _ _ _ _ _ _ _);
    try (apply sample_key_ok; lia); try (unfold safe_integer; lia).
  simpl; lia.
Defined.

(** * Further properties *)

(** ** What the queries return *)

Lemma memcmp_matches_spec (f : MemcmpFilter) (pat account_data : list Z) :
  pattern f = Some pat -> 0 <= offset f ->
  memcmp_matches f account_data = true
  <-> slice (Z.to_nat (offset f)) (List.length pat) account_data = pat.
Proof.
  unfold memcmp_matches, slice; intros -> Ho.
  destruct (Z.leb_spec 0 (offset f)); [|lia].
  cbn [andb]. apply bytes_eqb_eq.
Qed.

Lemma b58_digit_char_total (d : Z) : b58_digit (b58_char d) <> None.
Proof.
  unfold b58_char. generalize (Z.to_nat d); intros n.
  do 58 (destruct n as [|n]; [vm_compute; discriminate|]).
  cbn; discriminate.
Qed.

Lemma map_option_chars (z : nat) (ds : list Z) :
  map_option b58_digit (repeat LEADER z ++ map b58_char ds) <> None.
Proof.
  induction z as [|z IH]; simpl.
  - induction ds as [|d ds IHd]; simpl; [discriminate|].
    pose proof (b58_digit_char_total d).
    destruct (b58_digit (b58_char d)); [|contradiction].
    destruct (map_option b58_digit (map b58_char ds)); [discriminate|].
    contradiction.
  - destruct (map_option b58_digit (repeat LEADER z ++ map b58_char ds));
      [discriminate | contradiction].
Qed.

(** The text of any byte string is base-58 text. *)
Lemma bs58_encode_decodes (source : list Z) :
  bs58_decode (bs58_encode source) <> None.
Proof.
  unfold bs58_encode, bs58_decode.
  rewrite list_ascii_of_string_of_list_ascii.
  pose proof (map_option_chars (leading_zeros source)
                (digits_of (8 * List.length (skipn (leading_zeros source) source))
                   BASE (value_of 256 (skipn (leading_zeros source) source)) []))
    as Hm.
  destruct (map_option b58_digit _); [discriminate | contradiction].
Qed.

Lemma scan_failure (r : Remote) (program : PublicKey)
  (filters : list MemcmpFilter) (e : Error) :
  Forall (fun f => pattern f <> None) filters ->
  fst (rpc_getProgramAccounts r program filters) = inl e ->
  failure r (GetProgramAccounts program filters) = Some e.
Proof.
  intros Hf; unfold rpc_getProgramAccounts; cbn [fst].
  destruct (failure r _); [intros [= ->]; reflexivity|].
  replace (forallb _ filters) with true; [discriminate|].
  symmetry; apply forallb_forall; intros f Hin.
  rewrite Forall_forall in Hf; specialize (Hf f Hin).
  destruct (pattern f); [reflexivity | contradiction].
Qed.

(** The accounts found by a scan with a one-byte filter at offset 0 and an
    owner filter. *)
Lemma owner_scan_spec (r : Remote) (program : PublicKey) (text : string)
  (d off : Z) (owner : PublicKey)
  (found : list (PublicKey * AccountInfo.t)) :
  pattern {| offset := 0; bytes := text |} = Some [d] ->
  0 <= off -> bytes_ok owner ->
  fst (rpc_getProgramAccounts r program
         [ {| offset := 0; bytes := text |};
           {| offset := off; bytes := toBase58 owner |} ]) = inr found ->
  forall key info,
    In (key, info) found
    <-> In (key, info) (accounts r)
        /\ AccountInfo.owner info = program
        /\ (exists rest, AccountInfo.data info = d :: rest)
        /\ slice (Z.to_nat off) (List.length owner) (AccountInfo.data info)
           = owner.
Proof.
  intros Hd Hoff Hok Hscan key info.
  rewrite (scan_spec _ _ _ _ Hscan (key, info)); cbn [snd].
  rewrite <- (memcmp_first_byte text d) by exact Hd.
  rewrite <- (memcmp_matches_spec {| offset := off; bytes := toBase58 owner |}
                owner)
    by (try apply pattern_toBase58; assumption).
  split.
  - intros (Ha & Ho & Hm); repeat split; auto.
    + apply Hm; left; reflexivity.
    + apply Hm; right; left; reflexivity.
  - intros (Ha & Ho & H0 & H1); repeat split; auto.
    intros f [<-|[<-|[]]]; assumption.
Qed.

(** The accounts found by a scan with a single one-byte filter at offset 0. *)
Lemma discriminator_scan_spec (r : Remote) (program : PublicKey)
  (text : string) (d : Z) (found : list (PublicKey * AccountInfo.t)) :
  pattern {| offset := 0; bytes := text |} = Some [d] ->
  fst (rpc_getProgramAccounts r program [ {| offset := 0; bytes := text |} ])
  = inr found ->
  forall key info,
    In (key, info) found
    <-> In (key, info) (accounts r)
        /\ AccountInfo.owner info = program
        /\ exists rest, AccountInfo.data info = d :: rest.
Proof.
  intros Hd Hscan key info.
  rewrite (scan_spec _ _ _ _ Hscan (key, info)); cbn [snd].
  rewrite <- (memcmp_first_byte text d) by exact Hd.
  split.
  - intros (Ha & Ho & Hm); repeat split; auto.
    apply Hm; left; reflexivity.
  - intros (Ha & Ho & H0); repeat split; auto.
    intros f [<-|[]]; assumption.
Qed.

Lemma slice_length (from len : nat) (bs : list Z) :
  (0 < len)%nat ->
  List.length (slice from len bs) = len ->
  (from + len <= List.length bs)%nat.
Proof.
  unfold slice; rewrite length_firstn, length_skipn; lia.
Qed.

Section QueryResults.

Context `{Imports}.

(** X1: for a 32-byte owner, [getStakeAccounts] returns exactly the accounts
    of the program whose first byte is 3 and whose bytes 1 to 32 are the
    owner's; an account shorter than 33 bytes is never returned. *)
Theorem getStakeAccounts_returns (owner : PublicKey) (r : Remote)
  (found : list (PublicKey * AccountInfo.t)) :
  key_ok owner ->
  fst (run (getStakeAccounts owner) r) = inr found ->
  forall key info,
    (In (key, info) found
     <-> In (key, info) (accounts r)
         /\ AccountInfo.owner info = ACCESS_PROGRAM_ID
         /\ (exists rest, AccountInfo.data info = 3 :: rest)
         /\ slice 1 32 (AccountInfo.data info) = toBuffer owner)
    /\ (In (key, info) found ->
        (33 <= List.length (AccountInfo.data info))%nat).
Proof.
  intros [Hlen Hok] Hrun key info.
  unfold getStakeAccounts in Hrun; rewrite query_run in Hrun.
  pose proof (owner_scan_spec r _ "4" 3 1 owner found eq_refl ltac:(lia) Hok
                Hrun key info) as Hspec.
  rewrite Hlen in Hspec. split; [exact Hspec|].
  intros Hin; apply Hspec in Hin as (_ & _ & _ & Hs).
  apply (slice_length 1 32); [lia|].
  change (Z.to_nat 1) with 1%nat in Hs; rewrite Hs; exact Hlen.
Qed.

(** X2: for a 32-byte owner, [getStakePools] returns exactly the accounts of
    the program whose first byte is 1 and whose bytes 32 to 63 are the
    owner's; an account shorter than 64 bytes is never returned. *)
Theorem getStakePools_returns (owner : PublicKey) (r : Remote)
  (found : list (PublicKey * AccountInfo.t)) :
  key_ok owner ->
  fst (run (getStakePools owner) r) = inr found ->
  forall key info,
    (In (key, info) found
     <-> In (key, info) (accounts r)
         /\ AccountInfo.owner info = ACCESS_PROGRAM_ID
         /\ (exists rest, AccountInfo.data info = 1 :: rest)
         /\ slice 32 32 (AccountInfo.data info) = toBuffer owner)
    /\ (In (key, info) found ->
        (64 <= List.length (AccountInfo.data info))%nat).
Proof.
  intros [Hlen Hok] Hrun key info.
  unfold getStakePools in Hrun; rewrite query_run in Hrun.
  pose proof (owner_scan_spec r _ "2" 1 (1 + 1 + 2 + 4 + 8 + 8 + 8) owner found
                eq_refl ltac:(lia) Hok Hrun key info) as Hspec.
  rewrite Hlen in Hspec.
  change (Z.to_nat (1 + 1 + 2 + 4 + 8 + 8 + 8)) with 32%nat in Hspec.
  split; [exact Hspec|].
  intros Hin; apply Hspec in Hin as (_ & _ & _ & Hs).
  apply (slice_length 32 32); [lia|].
  rewrite Hs; exact Hlen.
Qed.

(** X3: for a 32-byte owner, [getBondAccounts] returns exactly the accounts
    of the program whose first byte is 5 and whose bytes 1 to 32 are the
    owner's. *)
Theorem getBondAccounts_returns (owner : PublicKey) (r : Remote)
  (found : list (PublicKey * AccountInfo.t)) :
  key_ok owner ->
  fst (run (getBondAccounts owner) r) = inr found ->
  forall key info,
    In (key, info) found
    <-> In (key, info) (accounts r)
        /\ AccountInfo.owner info = ACCESS_PROGRAM_ID
        /\ (exists rest, AccountInfo.data info = 5 :: rest)
        /\ slice 1 32 (AccountInfo.data info) = toBuffer owner.
Proof.
  intros [Hlen Hok] Hrun key info.
  unfold getBondAccounts in Hrun; rewrite query_run in Hrun.
  pose proof (owner_scan_spec r _ "6" 5 1 owner found eq_refl ltac:(lia) Hok
                Hrun key info) as Hspec.
  rewrite Hlen in Hspec. exact Hspec.
Qed.

(** X4: [getAllInactiveStakePools], [getAllInactiveBonds] and
    [getAllActiveBonds] return exactly the accounts of the program whose
    first byte is 2, 4 and 5. *)
Theorem all_queries_return (r : Remote)
  (found : list (PublicKey * AccountInfo.t)) :
  (fst (run getAllInactiveStakePools r) = inr found ->
   forall key info,
     In (key, info) found
     <-> In (key, info) (accounts r)
         /\ AccountInfo.owner info = ACCESS_PROGRAM_ID
         /\ exists rest, AccountInfo.data info = 2 :: rest)
  /\ (fst (run getAllInactiveBonds r) = inr found ->
      forall key info,
        In (key, info) found
        <-> In (key, info) (accounts r)
            /\ AccountInfo.owner info = ACCESS_PROGRAM_ID
            /\ exists rest, AccountInfo.data info = 4 :: rest)
  /\ (fst (run getAllActiveBonds r) = inr found ->
      forall key info,
        In (key, info) found
        <-> In (key, info) (accounts r)
            /\ AccountInfo.owner info = ACCESS_PROGRAM_ID
            /\ exists rest, AccountInfo.data info = 5 :: rest).
Proof.
  split; [|split]; intros Hrun key info.
  - unfold getAllInactiveStakePools in Hrun; rewrite query_run in Hrun.
    exact (discriminator_scan_spec r _ "3" 2 found eq_refl Hrun key info).
  - unfold getAllInactiveBonds in Hrun; rewrite query_run in Hrun.
    exact (discriminator_scan_spec r _ "5" 4 found eq_refl Hrun key info).
  - unfold getAllActiveBonds in Hrun; rewrite query_run in Hrun.
    exact (discriminator_scan_spec r _ "6" 5 found eq_refl Hrun key info).
Qed.

(** The first byte of every account that a query of the table returns. *)
Lemma query_table_first_byte (owner : PublicKey) (r : Remote)
  (q : Async (list (PublicKey * AccountInfo.t))) (d : Z)
  (found : list (PublicKey * AccountInfo.t)) :
  In (q, d) (query_table owner) ->
  fst (run q r) = inr found ->
  forall a, In a found ->
    In a (accounts r)
    /\ AccountInfo.owner (snd a) = ACCESS_PROGRAM_ID
    /\ exists rest, AccountInfo.data (snd a) = d :: rest.
Proof.
  intros Hq Hrun a Hin.
  assert (Hgen : forall text filters,
             pattern {| offset := 0; bytes := text |} = Some [d] ->
             fst (rpc_getProgramAccounts r ACCESS_PROGRAM_ID
                    ({| offset := 0; bytes := text |} :: filters)) = inr found ->
             In a (accounts r)
             /\ AccountInfo.owner (snd a) = ACCESS_PROGRAM_ID
             /\ exists rest, AccountInfo.data (snd a) = d :: rest).
  { intros text filters Hd Hscan.
    destruct (proj1 (scan_spec _ _ _ _ Hscan a) Hin) as (Ha & Ho & Hm).
    repeat split; auto.
    apply (memcmp_first_byte text d _ Hd), Hm; left; reflexivity. }
  unfold query_table in Hq; simpl in Hq.
  repeat (destruct Hq as [Hq|Hq];
          [injection Hq as <- <-;
           unfold getAllStakePools, getStakePools, getAllInactiveStakePools,
             getStakeAccounts, getAllInactiveBonds, getAllActiveBonds,
             getBondAccounts in Hrun;
           rewrite query_run in Hrun;
           eapply Hgen; [|exact Hrun]; reflexivity|]).
  contradiction.
Qed.

(** X5: two queries whose filters at offset 0 stand for different bytes never
    return the same account: active and inactive pools, stake accounts,
    inactive and active bonds are kept apart. *)
Theorem queries_of_different_bytes_are_disjoint (owner1 owner2 : PublicKey)
  (r1 r2 : Remote) (q1 q2 : Async (list (PublicKey * AccountInfo.t)))
  (d1 d2 : Z) (found1 found2 : list (PublicKey * AccountInfo.t)) :
  In (q1, d1) (query_table owner1) ->
  In (q2, d2) (query_table owner2) ->
  d1 <> d2 ->
  fst (run q1 r1) = inr found1 ->
  fst (run q2 r2) = inr found2 ->
  forall a, In a found1 -> ~ In a found2.
Proof.
  intros Hq1 Hq2 Hd Hrun1 Hrun2 a Hin1 Hin2.
  destruct (query_table_first_byte _ _ _ _ _ Hq1 Hrun1 a Hin1)
    as (_ & _ & rest1 & E1).
  destruct (query_table_first_byte _ _ _ _ _ Hq2 Hrun2 a Hin2)
    as (_ & _ & rest2 & E2).
  congruence.
Qed.

(** X6: what a per-owner query returns, the corresponding query for all
    owners returns too: the pools of an owner are among [getAllStakePools]
    and the bonds of an owner among [getAllActiveBonds], so
    [getBondAccounts] returns no bond that [getAllInactiveBonds] returns. *)
Theorem owner_queries_within_all (owner : PublicKey) (r : Remote)
  (mine all : list (PublicKey * AccountInfo.t)) :
  (fst (run (getStakePools owner) r) = inr mine ->
   fst (run getAllStakePools r) = inr all ->
   incl mine all)
  /\ (fst (run (getBondAccounts owner) r) = inr mine ->
      fst (run getAllActiveBonds r) = inr all ->
      incl mine all)
  /\ (fst (run (getBondAccounts owner) r) = inr mine ->
      fst (run getAllInactiveBonds r) = inr all ->
      forall a, In a mine -> ~ In a all).
Proof.
  split; [|split].
  - intros Hmine Hall [key info] Hin.
    destruct (query_table_first_byte owner r _ 1 mine
                ltac:(right; left; reflexivity) Hmine _ Hin) as (Ha & Ho & Hd).
    unfold getAllStakePools in Hall; rewrite query_run in Hall.
    apply (discriminator_scan_spec r _ "2" 1 all eq_refl Hall); auto.
  - intros Hmine Hall [key info] Hin.
    destruct (query_table_first_byte owner r _ 5 mine
                ltac:(do 6 right; left; reflexivity) Hmine _ Hin)
      as (Ha & Ho & Hd).
    unfold getAllActiveBonds in Hall; rewrite query_run in Hall.
    apply (discriminator_scan_spec r _ "6" 5 all eq_refl Hall); auto.
  - intros Hmine Hall a Hin Hin'.
    destruct (query_table_first_byte owner r _ 5 mine
                ltac:(do 6 right; left; reflexivity) Hmine _ Hin)
      as (_ & _ & rest & E).
    destruct (query_table_first_byte owner r _ 4 all
                ltac:(do 4 right; left; reflexivity) Hall _ Hin')
      as (_ & _ & rest' & E').
    congruence.
Qed.

(** X7: the per-owner queries keep owners apart: for two different 32-byte
    owners, no account is returned for both. *)
Theorem different_owners_are_disjoint (owner1 owner2 : PublicKey)
  (r1 r2 : Remote) (found1 found2 : list (PublicKey * AccountInfo.t)) :
  key_ok owner1 -> key_ok owner2 -> owner1 <> owner2 ->
  (fst (run (getStakeAccounts owner1) r1) = inr found1 ->
   fst (run (getStakeAccounts owner2) r2) = inr found2 ->
   forall a, In a found1 -> ~ In a found2)
  /\ (fst (run (getStakePools owner1) r1) = inr found1 ->
      fst (run (getStakePools owner2) r2) = inr found2 ->
      forall a, In a found1 -> ~ In a found2)
  /\ (fst (run (getBondAccounts owner1) r1) = inr found1 ->
      fst (run (getBondAccounts owner2) r2) = inr found2 ->
      forall a, In a found1 -> ~ In a found2).
Proof.
  intros [L1 K1] [L2 K2] Hne.
  split; [|split]; intros H1 H2 [key info] Hin1 Hin2; apply Hne.
  - unfold getStakeAccounts in H1, H2; rewrite query_run in H1, H2.
    apply (owner_scan_spec r1 _ "4" 3 1 owner1 found1 eq_refl ltac:(lia) K1 H1)
      in Hin1 as (_ & _ & _ & E1).
    apply (owner_scan_spec r2 _ "4" 3 1 owner2 found2 eq_refl ltac:(lia) K2 H2)
      in Hin2 as (_ & _ & _ & E2).
    rewrite L1 in E1; rewrite L2 in E2; congruence.
  - unfold getStakePools in H1, H2; rewrite query_run in H1, H2.
    apply (owner_scan_spec r1 _ "2" 1 (1 + 1 + 2 + 4 + 8 + 8 + 8) owner1 found1
             eq_refl ltac:(lia) K1 H1)
      in Hin1 as (_ & _ & _ & E1).
    apply (owner_scan_spec r2 _ "2" 1 (1 + 1 + 2 + 4 + 8 + 8 + 8) owner2 found2
             eq_refl ltac:(lia) K2 H2)
      in Hin2 as (_ & _ & _ & E2).
    rewrite L1 in E1; rewrite L2 in E2; congruence.
  - unfold getBondAccounts in H1, H2; rewrite query_run in H1, H2.
    apply (owner_scan_spec r1 _ "6" 5 1 owner1 found1 eq_refl ltac:(lia) K1 H1)
      in Hin1 as (_ & _ & _ & E1).
    apply (owner_scan_spec r2 _ "6" 5 1 owner2 found2 eq_refl ltac:(lia) K2 H2)
      in Hin2 as (_ & _ & _ & E2).
    rewrite L1 in E1; rewrite L2 in E2; congruence.
Qed.

(** X8: the filters of every query are base-58 text whatever the owner, so
    the endpoint never rejects them: a query of the table fails only with
    the error with which the endpoint refuses its one request. *)
Theorem queries_fail_only_with_the_endpoint_error (owner : PublicKey)
  (r : Remote) (q : Async (list (PublicKey * AccountInfo.t))) (d : Z)
  (e : Error) :
  In (q, d) (query_table owner) ->
  fst (run q r) = inl e ->
  exists filters,
    steps q r = [Scan ACCESS_PROGRAM_ID filters]
    /\ failure r (GetProgramAccounts ACCESS_PROGRAM_ID filters) = Some e.
Proof.
  intros Hq Hrun.
  assert (Hown : forall off, pattern {| offset := off; bytes := toBase58 owner |}
                             <> None)
    by (intros off; apply bs58_encode_decodes).
  unfold query_table in Hq; simpl in Hq.
  repeat (destruct Hq as [Hq|Hq];
          [injection Hq as <- <-;
           unfold getAllStakePools, getStakePools, getAllInactiveStakePools,
             getStakeAccounts, getAllInactiveBonds, getAllActiveBonds,
             getBondAccounts in *;
           rewrite query_run in Hrun; rewrite query_steps;
           eexists; split; [reflexivity|];
           apply scan_failure; [|exact Hrun];
           repeat (constructor; [first [apply Hown | discriminate]|]);
           constructor|]).
  contradiction.
Qed.

End QueryResults.

(** ** What the builders read *)

Section BuilderReads.

Context `{Imports}.

Lemma pubkeys_metas (kind : InstructionKind) (i : nat) (l : list PublicKey) :
  map pubkey (metas kind i l) = l.
Proof.
  revert i; induction l as [|k l IH]; intros i; simpl; [reflexivity|].
  rewrite IH; reflexivity.
Qed.

Lemma pubkeys_getInstruction (kind : InstructionKind) (props : Props)
  (program : PublicKey) (accts : list PublicKey) :
  pubkeys (getInstruction kind props program accts) = accts.
Proof. apply pubkeys_metas. Qed.

Ltac await :=
  unfold CentralState_retrieve, StakePool_retrieve, BondAccount_retrieve,
    StakeAccount_retrieve, connection_getProgramAccounts;
  cbn [bind];
  repeat (rewrite ?run_retrieve, ?steps_retrieve, ?run_scan, ?steps_scan,
            ?retrieve_serve).

Ltac derive_keys :=
  repeat match goal with
         | |- context [CentralState_getKey ?p] =>
             destruct (CentralState_getKey p)
         | |- context [StakePool_getKey ?p ?o ?d] =>
             destruct (StakePool_getKey p o d)
         | |- context [StakeAccount_getKey ?p ?o ?s] =>
             destruct (StakeAccount_getKey p o s)
         | |- context [BondAccount_getKey ?p ?b ?n] =>
             destruct (BondAccount_getKey p b n)
         end.

(** The cases of a call: what its reads reply and whether its local
    conversions throw. *)
Ltac cases :=
  derive_keys; unfold new_BN, settle; await;
  repeat (match goal with
          | |- context [match fst (retrieve ?r ?k ?key) with _ => _ end] =>
              destruct (fst (retrieve r k key)) eqn:?
          | |- context [Z.abs ?n <? 2 ^ 53] =>
              destruct (Z.ltb_spec (Z.abs n) (2 ^ 53))
          | |- context [Token_getAssociatedTokenAddress ?a ?b ?c ?d] =>
              destruct (Token_getAssociatedTokenAddress a b c d) eqn:?
          end; await);
  cbn [steps run fst snd].

Ltac count_reads :=
  cases; (split; [cbn [List.length]; lia | repeat (constructor; eauto)]).

(** Success of a call that is settled in the current case. *)
Ltac settled :=
  split;
  [ intros [? E];
    first [ discriminate E
          | repeat split; first [eexists; reflexivity | lia | assumption] ]
  | intros E;
    first [ eexists; reflexivity
          | exfalso; repeat match goal with
                            | X : _ /\ _ |- _ => destruct X
                            | X : exists _, _ |- _ => destruct X
                            end;
            first [discriminate | lia] ] ].

(** X9: [adminMint], [changeInflation] and [changePoolMinimum] succeed
    exactly when their account is retrieved and the magnitude of their
    number is below 2^53; a larger number is rejected with the assertion of
    [new BN], but only after the account has been read. *)
Theorem number_builders_succeed_iff (n : Z)
  (key destination programId : PublicKey) (r : Remote) :
  let centralKey := fst (CentralState_getKey programId) in
  ((exists ix, fst (run (adminMint n destination programId) r) = inr ix)
   <-> (exists centralState,
           fst (retrieve r KCentralState centralKey) = inr centralState)
       /\ Z.abs n < 2 ^ 53)
  /\ ((exists ix, fst (run (changeInflation n programId) r) = inr ix)
      <-> (exists centralState,
              fst (retrieve r KCentralState centralKey) = inr centralState)
          /\ Z.abs n < 2 ^ 53)
  /\ ((exists ix, fst (run (changePoolMinimum key n programId) r) = inr ix)
      <-> (exists pool, fst (retrieve r KStakePool key) = inr pool)
          /\ Z.abs n < 2 ^ 53)
  /\ (2 ^ 53 <= Z.abs n ->
      (exists centralState,
          fst (retrieve r KCentralState centralKey) = inr centralState) ->
      run (adminMint n destination programId) r
      = (inl ASSERTION_FAILED, serve r (GetAccountInfo centralKey))
      /\ run (changeInflation n programId) r
         = (inl ASSERTION_FAILED, serve r (GetAccountInfo centralKey)))
  /\ (2 ^ 53 <= Z.abs n ->
      (exists pool, fst (retrieve r KStakePool key) = inr pool) ->
      run (changePoolMinimum key n programId) r
      = (inl ASSERTION_FAILED, serve r (GetAccountInfo key))).
Proof.
  unfold adminMint, changeInflation, changePoolMinimum.
  destruct (CentralState_getKey programId) as [centralKey nonce].
  cbn [fst]. repeat match goal with |- _ /\ _ => split end.
  - cases; settled.
  - cases; settled.
  - cases; settled.
  - intros Hn [centralState Hc]. await. rewrite Hc.
    rewrite !new_BN_rejects by exact Hn. split; reflexivity.
  - intros Hn [pool Hp]. await. rewrite Hp.
    rewrite !new_BN_rejects by exact Hn. reflexivity.
Qed.

(** X10: [stake] and [unstake] resolve their accounts alike: both read the
    stake account and then the pool at the address recorded in it, so they
    send the same requests; for amounts of magnitude below 2^53 they fail
    with the same error, and when they succeed their account lists differ
    in the token account only; an amount of magnitude 2^53 or more is
    rejected with the assertion of [new BN] after both reads. *)
Theorem stake_and_unstake_resolve_alike
  (stakeAccount sourceToken destinationToken : PublicKey)
  (amount amount' : Z) (programId : PublicKey) (r : Remote) :
  steps (stake stakeAccount sourceToken amount programId) r
  = match fst (retrieve r KStakeAccount stakeAccount) with
    | inl _ => [Retrieve KStakeAccount stakeAccount]
    | inr account =>
        [ Retrieve KStakeAccount stakeAccount;
          Retrieve KStakePool (StakeAccount.stakePool account) ]
    end
  /\ steps (unstake stakeAccount destinationToken amount' programId) r
     = steps (stake stakeAccount sourceToken amount programId) r
  /\ (Z.abs amount < 2 ^ 53 -> Z.abs amount' < 2 ^ 53 ->
      (forall e,
          fst (run (stake stakeAccount sourceToken amount programId) r) = inl e
          <-> fst (run (unstake stakeAccount destinationToken amount'
                          programId) r) = inl e)
      /\ (forall ix,
             fst (run (stake stakeAccount sourceToken amount programId) r)
             = inr ix ->
             exists ix' pool owner vault,
               fst (run (unstake stakeAccount destinationToken amount'
                           programId) r) = inr ix'
               /\ pubkeys ix
                  = [ stakeAccount; pool; owner; sourceToken;
                      TOKEN_PROGRAM_ID; vault ]
               /\ pubkeys ix'
                  = [ stakeAccount; pool; owner; destinationToken;
                      TOKEN_PROGRAM_ID; vault ]))
  /\ (2 ^ 53 <= Z.abs amount ->
      forall account pool,
        fst (retrieve r KStakeAccount stakeAccount) = inr account ->
        fst (retrieve r KStakePool (StakeAccount.stakePool account))
        = inr pool ->
        fst (run (stake stakeAccount sourceToken amount programId) r)
        = inl ASSERTION_FAILED).
Proof.
  unfold stake, unstake. repeat match goal with |- _ /\ _ => split end.
  - cases; reflexivity.
  - cases; reflexivity.
  - intros Ha Ha'. rewrite !new_BN_accepts by assumption. await.
    destruct (fst (retrieve r KStakeAccount stakeAccount)) as [e0|account];
      [split; [tauto | discriminate]|].
    await.
    destruct (fst (retrieve r KStakePool (StakeAccount.stakePool account)))
      as [e1|pool]; [split; [tauto | discriminate]|].
    split; [intros e; split; discriminate|].
    cbn [bind run fst]. intros ix [= <-].
    eexists _, _, _, _; split; [reflexivity|].
    rewrite !pubkeys_getInstruction; split; reflexivity.
  - intros Ha account pool Hacc Hpool. await. rewrite Hacc. await.
    rewrite Hpool, new_BN_rejects by exact Ha. reflexivity.
Qed.

(** X11: the first read decides: when the stake account cannot be retrieved,
    [claimRewards] fails with that error after that one request, and when
    the central state cannot be retrieved, [unlockBondTokens] and
    [claimPoolRewards] do; the second account is not requested. *)
Theorem first_read_decides (account destination programId : PublicKey)
  (r : Remote) (e : Error) :
  (fst (retrieve r KStakeAccount account) = inl e ->
   run (claimRewards account destination programId) r
   = (inl e, serve r (GetAccountInfo account)))
  /\ (fst (retrieve r KCentralState (fst (CentralState_getKey programId)))
      = inl e ->
      run (unlockBondTokens account destination programId) r
      = (inl e, serve r (GetAccountInfo (fst (CentralState_getKey programId))))
      /\ run (claimPoolRewards account destination programId) r
         = (inl e,
            serve r (GetAccountInfo (fst (CentralState_getKey programId))))).
Proof.
  split.
  - intros Hs. unfold claimRewards. await. rewrite Hs. reflexivity.
  - unfold unlockBondTokens, claimPoolRewards.
    destruct (CentralState_getKey programId) as [centralKey nonce].
    cbn [fst]; intros Hc. await. rewrite Hc. split; reflexivity.
Qed.

(** X12: every builder awaits at most two steps, each the read of a single
    account; none scans the accounts of the program. *)
Theorem builders_read_at_most_two_accounts (r : Remote) :
  (forall n p, at_most_two_reads (steps (changeInflation n p) r))
  /\ (forall k n p, at_most_two_reads (steps (changePoolMinimum k n p) r))
  /\ (forall b d p, at_most_two_reads (steps (claimBondRewards b d p) r))
  /\ (forall b u q p, at_most_two_reads (steps (claimBond b u q p) r))
  /\ (forall s d p, at_most_two_reads (steps (claimPoolRewards s d p) r))
  /\ (forall s d p, at_most_two_reads (steps (claimRewards s d p) r))
  /\ (forall s p, at_most_two_reads (steps (closeStakeAccount s p) r))
  /\ (forall s p, at_most_two_reads (steps (closeStakePool s p) r))
  /\ (forall s p, at_most_two_reads (steps (crank s p) r))
  /\ (forall s b a1 a2 q t u1 u2 u3 u4 k i p,
         at_most_two_reads
           (steps (createBond s b a1 a2 q t u1 u2 u3 u4 k i p) r))
  /\ (forall n a f m p,
         at_most_two_reads (steps (createCentralState n a f m p) r))
  /\ (forall s o f p, at_most_two_reads (steps (createStakeAccount s o f p) r))
  /\ (forall n o d m f p,
         at_most_two_reads (steps (createStakePool n o d m f p) r))
  /\ (forall i s b p, at_most_two_reads (steps (signBond i s b p) r))
  /\ (forall s t n p, at_most_two_reads (steps (stake s t n p) r))
  /\ (forall b d p, at_most_two_reads (steps (unlockBondTokens b d p) r))
  /\ (forall s t n p, at_most_two_reads (steps (unstake s t n p) r))
  /\ (forall n d p, at_most_two_reads (steps (adminMint n d p) r)).
Proof.
  unfold at_most_two_reads, account_reads_only.
  repeat match goal with |- _ /\ _ => split end; intros.
  - unfold changeInflation; count_reads.
  - unfold changePoolMinimum; count_reads.
  - unfold claimBondRewards; count_reads.
  - unfold claimBond; count_reads.
  - unfold claimPoolRewards; count_reads.
  - unfold claimRewards; count_reads.
  - unfold closeStakeAccount; count_reads.
  - unfold closeStakePool; count_reads.
  - unfold crank; count_reads.
  - unfold createBond; count_reads.
  - unfold createCentralState; count_reads.
  - unfold createStakeAccount; count_reads.
  - unfold createStakePool; count_reads.
  - unfold signBond; count_reads.
  - unfold stake; count_reads.
  - unfold unlockBondTokens; count_reads.
  - unfold unstake; count_reads.
  - unfold adminMint; count_reads.
Qed.

(** X13: [createStakeAccount], [signBond], [createCentralState] and
    [createBond] send no request: on every endpoint, one that refuses every
    request included, the endpoint is left as it was; [createStakeAccount]
    always returns an instruction, and the other three return one exactly
    when the magnitude of each of their numbers is below 2^53 and fail with
    the assertion of [new BN] otherwise. *)
Theorem builders_without_reads (r : Remote) :
  (forall s o f p, exists ix,
      run (createStakeAccount s o f p) r = (inr ix, r))
  /\ (forall i s b p,
         snd (run (signBond i s b p) r) = r
         /\ ((exists ix, fst (run (signBond i s b p) r) = inr ix)
             <-> Z.abs i < 2 ^ 53)
         /\ (forall e, fst (run (signBond i s b p) r) = inl e ->
                       e = ASSERTION_FAILED))
  /\ (forall n a f m p,
         snd (run (createCentralState n a f m p) r) = r
         /\ ((exists ix, fst (run (createCentralState n a f m p) r) = inr ix)
             <-> Z.abs n < 2 ^ 53)
         /\ (forall e, fst (run (createCentralState n a f m p) r) = inl e ->
                       e = ASSERTION_FAILED))
  /\ (forall s b a1 a2 q t u1 u2 u3 u4 k i p,
         snd (run (createBond s b a1 a2 q t u1 u2 u3 u4 k i p) r) = r
         /\ ((exists ix,
                 fst (run (createBond s b a1 a2 q t u1 u2 u3 u4 k i p) r)
                 = inr ix)
             <-> Z.abs a1 < 2 ^ 53 /\ Z.abs a2 < 2 ^ 53 /\ Z.abs u1 < 2 ^ 53
                 /\ Z.abs u2 < 2 ^ 53 /\ Z.abs u3 < 2 ^ 53
                 /\ Z.abs u4 < 2 ^ 53 /\ Z.abs i < 2 ^ 53)
         /\ (forall e,
                fst (run (createBond s b a1 a2 q t u1 u2 u3 u4 k i p) r)
                = inl e ->
                e = ASSERTION_FAILED)).
Proof.
  repeat match goal with |- _ /\ _ => split end; intros.
  - unfold createStakeAccount; derive_keys; eexists; reflexivity.
  - unfold signBond.
    split; [cases; reflexivity|].
    split; [cases; settled | intros e; cases; intros E; congruence].
  - unfold createCentralState.
    split; [cases; reflexivity|].
    split; [cases; settled | intros e; cases; intros E; congruence].
  - unfold createBond.
    split; [cases; reflexivity|].
    split; [cases; settled | intros e; cases; intros E; congruence].
Qed.

(** X14: [createStakePool] fails with the error of retrieving the central
    state, or else with the error of the derivation of the vault address,
    or else with the assertion of [new BN] for a minimum of magnitude 2^53
    or more; otherwise it returns two instructions, the creation of the
    vault and then the creation of the pool, and the vault and the pool of
    the first are the last and the first account of the second. *)
Theorem createStakePool_instructions (name : string)
  (owner destination : PublicKey) (minimumStakeAmount : Z)
  (feePayer programId : PublicKey) (r : Remote) :
  let stakePool := fst (StakePool_getKey programId owner destination) in
  let centralKey := fst (CentralState_getKey programId) in
  let vault_of centralState :=
    Token_getAssociatedTokenAddress ASSOCIATED_TOKEN_PROGRAM_ID
      TOKEN_PROGRAM_ID (CentralState.tokenMint centralState) stakePool in
  (forall e,
      fst (run (createStakePool name owner destination minimumStakeAmount
                  feePayer programId) r) = inl e
      <-> fst (retrieve r KCentralState centralKey) = inl e
          \/ exists centralState,
              fst (retrieve r KCentralState centralKey) = inr centralState
              /\ (vault_of centralState = inl e
                  \/ ((exists vault, vault_of centralState = inr vault)
                      /\ 2 ^ 53 <= Z.abs minimumStakeAmount
                      /\ e = ASSERTION_FAILED)))
  /\ (forall both,
         fst (run (createStakePool name owner destination minimumStakeAmount
                     feePayer programId) r) = inr both ->
         exists centralState vault ix,
           fst (retrieve r KCentralState centralKey) = inr centralState
           /\ vault_of centralState = inr vault
           /\ Z.abs minimumStakeAmount < 2 ^ 53
           /\ both
              = [ Token_createAssociatedTokenAccountInstruction
                    ASSOCIATED_TOKEN_PROGRAM_ID TOKEN_PROGRAM_ID
                    (CentralState.tokenMint centralState) vault stakePool
                    feePayer;
                  ix ]
           /\ pubkeys ix
              = [stakePool; SystemProgram_programId; feePayer; vault]).
Proof.
  unfold createStakePool.
  destruct (StakePool_getKey programId owner destination) as [stakePool nonce].
  destruct (CentralState_getKey programId) as [centralKey nonce'].
  cbn [fst]. cbn zeta. await.
  destruct (fst (retrieve r KCentralState centralKey)) as [e0|centralState].
  { split; [|discriminate].
    intros e; split.
    - intros [= ->]; left; reflexivity.
    - intros [[= ->]|(cs & Hc & _)]; [reflexivity | discriminate]. }
  destruct (Token_getAssociatedTokenAddress ASSOCIATED_TOKEN_PROGRAM_ID
              TOKEN_PROGRAM_ID (CentralState.tokenMint centralState) stakePool)
    as [e1|vault] eqn:Hv; cbn [settle bind run fst].
  { split; [|discriminate].
    intros e; split.
    - intros [= ->]; right; exists centralState; split; [reflexivity|].
      left; exact Hv.
    - intros [Hc|(cs & [= <-] & [Hv'|((v & Hv') & _)])];
        [discriminate | | rewrite Hv in Hv'; discriminate].
      rewrite Hv in Hv'; injection Hv' as ->; reflexivity. }
  destruct (Z.ltb_spec (Z.abs minimumStakeAmount) (2 ^ 53)) as [Hm|Hm].
  - rewrite new_BN_accepts by exact Hm. cbn [bind run fst].
    split.
    + intros e; split; [discriminate|].
      intros [Hc|(cs & [= <-] & [Hv'|(_ & Hm' & _)])];
        [discriminate | rewrite Hv in Hv'; discriminate | lia].
    + intros both [= <-].
      exists centralState, vault; eexists; repeat split; auto.
  - rewrite new_BN_rejects by exact Hm. cbn [bind run fst].
    split; [|discriminate].
    intros e; split.
    + intros [= <-]; right; exists centralState; split; [reflexivity|].
      right; repeat split; eauto.
    + intros [Hc|(cs & [= <-] & [Hv'|(_ & _ & ->)])];
        [discriminate | rewrite Hv in Hv'; discriminate | reflexivity].
Qed.

End BuilderReads.

(** ** The text of a key *)

(** X15: [toBase58] loses nothing: the text of a byte string decodes to the
    byte string, leading zero bytes included (each is one leading "1"), so
    two different keys never have the same text. *)
Theorem toBase58_round_trip (k k' : PublicKey) :
  bytes_ok k -> bytes_ok k' ->
  bs58_decode (toBase58 k) = Some (toBuffer k)
  /\ (toBase58 k = toBase58 k' -> k = k')
  /\ toBase58 (0 :: k) = String LEADER (toBase58 k).
Proof.
  intros Hk Hk'. split; [|split].
  - apply bs58_decode_encode, Hk.
  - intros E.
    pose proof (bs58_decode_encode k Hk) as D.
    pose proof (bs58_decode_encode k' Hk') as D'.
    unfold toBase58, toBuffer in E. rewrite E in D. congruence.
  - reflexivity.
Qed.

(** ** The further statements at the sample endpoints *)

Lemma getStakeAccounts_returns_witness :
  (In (sample_key 50, sample_account 3 [sample_key 61; sample_key 30])
     [(sample_key 50, sample_account 3 [sample_key 61; sample_key 30])]
   <-> In (sample_key 50, sample_account 3 [sample_key 61; sample_key 30])
         (accounts sample_remote)
       /\ AccountInfo.owner (sample_account 3 [sample_key 61; sample_key 30])
          = ACCESS_PROGRAM_ID
       /\ (exists rest,
              AccountInfo.data (sample_account 3 [sample_key 61; sample_key 30])
              = 3 :: rest)
       /\ slice 1 32
            (AccountInfo.data (sample_account 3 [sample_key 61; sample_key 30]))
          = toBuffer (sample_key 61))
  /\ (In (sample_key 50, sample_account 3 [sample_key 61; sample_key 30])
        [(sample_key 50, sample_account 3 [sample_key 61; sample_key 30])] ->
      (33 <= List.length
               (AccountInfo.data
                  (sample_account 3 [sample_key 61; sample_key 30])))%nat).
Proof.
  refine (getStakeAccounts_returns (sample_key 61) sample_remote
            [(sample_key 50, sample_account 3 [sample_key 61; sample_key 30])]
            _ _ (sample_key 50)
            (sample_account 3 [sample_key 61; sample_key 30])).
  - apply sample_key_ok; lia.
  - vm_compute; reflexivity.
Defined.

Lemma getStakePools_returns_witness :
  exists info,
    fst (run (getStakePools (sample_key 61)) sample_pools)
    = inr [(sample_key 33, info)]
    /\ slice 32 32 (AccountInfo.data info) = toBuffer (sample_key 61)
    /\ (64 <= List.length (AccountInfo.data info))%nat.
Proof.
  exists (AccountInfo.mk (sample_key 9)
            (1 :: repeat 0 31 ++ sample_key 61 ++ sample_key 41)).
  assert (Hrun : fst (run (getStakePools (sample_key 61)) sample_pools)
                 = inr [(sample_key 33,
                         AccountInfo.mk (sample_key 9)
                           (1 :: repeat 0 31 ++ sample_key 61 ++ sample_key 41))])
    by (vm_compute; reflexivity).
  destruct (getStakePools_returns (sample_key 61) sample_pools _
              (sample_key_ok 61 ltac:(lia)) Hrun (sample_key 33)
              (AccountInfo.mk (sample_key 9)
                 (1 :: repeat 0 31 ++ sample_key 61 ++ sample_key 41)))
    as [Hiff Hlen].
  split; [exact Hrun|].
  split; [apply Hiff; left; reflexivity | apply Hlen; left; reflexivity].
Defined.

Lemma getBondAccounts_returns_witness :
  In (sample_key 70,
      sample_account 5 [sample_key 61; sample_key 30; sample_key 80])
    [(sample_key 70,
      sample_account 5 [sample_key 61; sample_key 30; sample_key 80])]
  <-> In (sample_key 70,
          sample_account 5 [sample_key 61; sample_key 30; sample_key 80])
        (accounts sample_remote)
      /\ AccountInfo.owner
           (sample_account 5 [sample_key 61; sample_key 30; sample_key 80])
         = ACCESS_PROGRAM_ID
      /\ (exists rest,
             AccountInfo.data
               (sample_account 5 [sample_key 61; sample_key 30; sample_key 80])
             = 5 :: rest)
      /\ slice 1 32
           (AccountInfo.data
              (sample_account 5 [sample_key 61; sample_key 30; sample_key 80]))
         = toBuffer (sample_key 61).
Proof.
  refine (getBondAccounts_returns (sample_key 61) sample_remote
            [(sample_key 70,
              sample_account 5 [sample_key 61; sample_key 30; sample_key 80])]
            _ _ (sample_key 70)
            (sample_account 5 [sample_key 61; sample_key 30; sample_key 80])).
  - apply sample_key_ok; lia.
  - vm_compute; reflexivity.
Defined.

Lemma all_queries_return_witness :
  In (sample_key 51, sample_account 4 [sample_key 61; sample_key 30])
    [(sample_key 51, sample_account 4 [sample_key 61; sample_key 30])]
  <-> In (sample_key 51, sample_account 4 [sample_key 61; sample_key 30])
        (accounts sample_remote)
      /\ AccountInfo.owner (sample_account 4 [sample_key 61; sample_key 30])
         = ACCESS_PROGRAM_ID
      /\ exists rest,
          AccountInfo.data (sample_account 4 [sample_key 61; sample_key 30])
          = 4 :: rest.
Proof.
  refine (proj1 (proj2 (all_queries_return sample_remote
                          [(sample_key 51,
                            sample_account 4 [sample_key 61; sample_key 30])]))
            _ (sample_key 51)
            (sample_account 4 [sample_key 61; sample_key 30])).
  vm_compute; reflexivity.
Defined.

Lemma queries_of_different_bytes_are_disjoint_witness :
  ~ In (sample_key 30, sample_account 1 [sample_key 40; sample_key 41])
      [(sample_key 31, sample_account 2 [sample_key 40; sample_key 42])].
Proof.
  refine (queries_of_different_bytes_are_disjoint (sample_key 61)
            (sample_key 61) sample_remote sample_remote
            getAllStakePools getAllInactiveStakePools 1 2
            [(sample_key 30, sample_account 1 [sample_key 40; sample_key 41])]
            [(sample_key 31, sample_account 2 [sample_key 40; sample_key 42])]
            _ _ _ _ _
            (sample_key 30, sample_account 1 [sample_key 40; sample_key 41]) _).
  - left; reflexivity.
  - right; right; left; reflexivity.
  - lia.
  - vm_compute; reflexivity.
  - vm_compute; reflexivity.
  - left; reflexivity.
Defined.

Lemma owner_queries_within_all_witness :
  incl
    [(sample_key 70,
      sample_account 5 [sample_key 61; sample_key 30; sample_key 80])]
    [(sample_key 70,
      sample_account 5 [sample_key 61; sample_key 30; sample_key 80])].
Proof.
  refine (proj1 (proj2 (owner_queries_within_all (sample_key 61) sample_remote
                          _ _)) _ _);
    vm_compute; reflexivity.
Defined.

Lemma different_owners_are_disjoint_witness :
  ~ In (sample_key 50, sample_account 3 [sample_key 61; sample_key 30])
      [(sample_key 32, sample_account 3 [sample_key 60; sample_key 30])].
Proof.
  refine (proj1 (different_owners_are_disjoint (sample_key 61) (sample_key 60)
                   sample_remote sample_remote
                   [(sample_key 50,
                     sample_account 3 [sample_key 61; sample_key 30])]
                   [(sample_key 32,
                     sample_account 3 [sample_key 60; sample_key 30])]
                   _ _ _)
            _ _
            (sample_key 50, sample_account 3 [sample_key 61; sample_key 30]) _).
  - apply sample_key_ok; lia.
  - apply sample_key_ok; lia.
  - discriminate.
  - vm_compute; reflexivity.
  - vm_compute; reflexivity.
  - left; reflexivity.
Defined.

Lemma queries_fail_only_with_the_endpoint_error_witness :
  exists filters,
    steps (getStakeAccounts (sample_key 61)) sample_offline
    = [Scan ACCESS_PROGRAM_ID filters]
    /\ failure sample_offline (GetProgramAccounts ACCESS_PROGRAM_ID filters)
       = Some "fetch failed"%string.
Proof.
  refine (queries_fail_only_with_the_endpoint_error (sample_key 61)
            sample_offline (getStakeAccounts (sample_key 61)) 3
            "fetch failed"%string _ _).
  - do 3 right; left; reflexivity.
  - vm_compute; reflexivity.
Defined.

Lemma number_builders_succeed_iff_witness :
  (exists ix,
      fst (run (adminMint 5 (sample_key 99) (sample_key 9)) sample_remote)
      = inr ix)
  /\ run (changePoolMinimum (sample_key 30) (2 ^ 53) (sample_key 9))
       sample_remote
     = (inl ASSERTION_FAILED,
        serve sample_remote (GetAccountInfo (sample_key 30))).
Proof.
  split.
  - apply (proj2 (proj1 (number_builders_succeed_iff 5 (sample_key 30)
                           (sample_key 99) (sample_key 9) sample_remote))).
    split; [eexists; vm_compute; reflexivity | vm_compute; reflexivity].
  - apply (proj2 (proj2 (proj2 (proj2
             (number_builders_succeed_iff (2 ^ 53) (sample_key 30)
                (sample_key 99) (sample_key 9) sample_remote))))).
    + vm_compute; discriminate.
    + eexists; vm_compute; reflexivity.
Defined.

Lemma stake_and_unstake_resolve_alike_witness :
  exists ix ix' pool owner vault,
    fst (run (stake (sample_key 50) (sample_key 98) 7 (sample_key 9))
           sample_remote) = inr ix
    /\ fst (run (unstake (sample_key 50) (sample_key 99) 3 (sample_key 9))
              sample_remote) = inr ix'
    /\ pubkeys ix
       = [ sample_key 50; pool; owner; sample_key 98; TOKEN_PROGRAM_ID; vault ]
    /\ pubkeys ix'
       = [ sample_key 50; pool; owner; sample_key 99; TOKEN_PROGRAM_ID; vault ].
Proof.
  destruct (fst (run (stake (sample_key 50) (sample_key 98) 7 (sample_key 9))
                   sample_remote)) as [e|ix] eqn:Hrun;
    [vm_compute in Hrun; discriminate|].
  destruct (proj2 (proj1 (proj2 (proj2 (stake_and_unstake_resolve_alike
                                          (sample_key 50) (sample_key 98)
                                          (sample_key 99) 7 3 (sample_key 9)
                                          sample_remote)))
                     ltac:(vm_compute; reflexivity)
                     ltac:(vm_compute; reflexivity)) ix Hrun)
    as (ix' & pool & owner & vault & H1 & H2 & H3).
  exists ix, ix', pool, owner, vault; auto.
Defined.

Lemma builders_without_reads_witness :
  (exists ix,
      fst (run (signBond 3 (sample_key 1) (sample_key 70) (sample_key 9))
             sample_offline) = inr ix)
  /\ ASSERTION_FAILED = ASSERTION_FAILED.
Proof.
  split.
  - apply (proj1 (proj2 (proj1 (proj2 (builders_without_reads sample_offline))
                           3 (sample_key 1) (sample_key 70) (sample_key 9)))).
    vm_compute; reflexivity.
  - apply (proj2 (proj2 (proj1 (proj2 (builders_without_reads sample_offline))
                           (2 ^ 53) (sample_key 1) (sample_key 70)
                           (sample_key 9)))).
    vm_compute; reflexivity.
Defined.

Lemma first_read_decides_witness :
  run (claimRewards (sample_key 50) (sample_key 99) (sample_key 9))
    sample_offline
  = (inl "fetch failed"%string,
     serve sample_offline (GetAccountInfo (sample_key 50))).
Proof.
  refine (proj1 (first_read_decides (sample_key 50) (sample_key 99)
                   (sample_key 9) sample_offline "fetch failed"%string) _).
  vm_compute; reflexivity.
Defined.

Lemma createStakePool_instructions_witness :
  exists both centralState vault ix,
    fst (run (createStakePool "pool" (sample_key 40) (sample_key 41) 1000
                (sample_key 97) (sample_key 9)) sample_remote) = inr both
    /\ fst (retrieve sample_remote KCentralState
              (fst (CentralState_getKey (sample_key 9)))) = inr centralState
    /\ List.length both = 2%nat
    /\ pubkeys ix
       = [ fst (StakePool_getKey (sample_key 9) (sample_key 40) (sample_key 41));
           SystemProgram_programId;
           sample_key 97;
           vault ].
Proof.
  destruct (fst (run (createStakePool "pool" (sample_key 40) (sample_key 41)
                        1000 (sample_key 97) (sample_key 9)) sample_remote))
    as [e|both] eqn:Hrun; [vm_compute in Hrun; discriminate|].
  destruct (proj2 (createStakePool_instructions "pool" (sample_key 40)
                     (sample_key 41) 1000 (sample_key 97) (sample_key 9)
                     sample_remote) both Hrun)
    as (centralState & vault & ix & Hc & Hv & Hm & Hb & Hp).
  exists both, centralState, vault, ix; repeat split; auto.
  rewrite Hb; reflexivity.
Defined.

Lemma toBase58_round_trip_witness :
  bs58_decode (toBase58 (sample_key 0)) = Some (toBuffer (sample_key 0))
  /\ (toBase58 (sample_key 0) = toBase58 (sample_key 1) ->
      sample_key 0 = sample_key 1)
  /\ toBase58 (0 :: sample_key 0) = String LEADER (toBase58 (sample_key 0)).
Proof.
  apply (toBase58_round_trip (sample_key 0) (sample_key 1));
    apply sample_key_ok; lia.
Defined.
